(** * download_images.py: the batch image fetcher of MSP_MyWaze

    A shallow embedding of [src/download_images.py] and the proofs of its
    specification.  The script walks a literal catalog of car brands and
    models, asks SerpAPI for an image of each model, and streams the first
    thumbnail to the path the catalog gives.

    Everything outside the script is an environment [Env]: the [requests]
    library, the operating system calls behind [open], [write], the
    closing of a file and [os.makedirs], and the interpreter's rendering
    of objects.  A run threads a [State] (file system, standard output,
    trace of the calls made to the environment) through the functions of
    the script.

    The functions come twice.  First on a standard output that accepts
    every line, which is what the results on the lines a call prints
    assume.  Then, in the module [Stdout], on a standard output that may
    refuse a line, where a [print] can raise and the run can end before
    the last entry. *)

From Stdlib Require Import ZArith String Ascii List Bool Lia.
From Stdlib.Strings Require Import Byte.
From Stdlib Require Import Floats.PrimFloat.
From stdpp Require Import base option list strings gmap pretty.

Set Warnings "-register-all".

Local Open Scope string_scope.
Local Open Scope list_scope.
Local Open Scope Z_scope.

(** ** Python values *)

(** The objects the script handles beyond plain strings: what
    [response.json()] can produce.  A [dict] keeps its items in insertion
    order, keys unique as the parser leaves them. *)
Inductive pyval : Type :=
  | PNone
  | PBool (b : bool)
  | PInt (z : Z)
  | PFloat (f : float)
  | PStr (s : string)
  | PList (l : list pyval)
  | PDict (d : list (string * pyval)).

(** What a call gives back: a value, or an exception of class [Exception]
    (the only ones [except Exception] catches), carried as the text
    [str(e)] the handlers print. *)
Inductive outcome (A : Type) : Type :=
  | Returns (a : A)
  | Raises (e : string).
Arguments Returns {A} a.
Arguments Raises {A} e.

(** Sequencing of calls that stops at the first exception. *)
Definition obind {A B} (o : outcome A) (k : A -> outcome B) : outcome B :=
  match o with
  | Returns a => k a
  | Raises e => Raises e
  end.

Notation "x <-? o ;; k" := (obind o (fun x => k))
  (at level 100, o at next level, right associativity).

(** [bool(v)], as the [if] statements of the script test it. *)
Definition truthy (v : pyval) : bool :=
  match v with
  | PNone => false
  | PBool b => b
  | PInt z => negb (z =? 0)
  | PFloat f => negb (PrimFloat.eqb f PrimFloat.zero)
  | PStr s => negb (String.eqb s "")
  | PList l => match l with [] => false | _ :: _ => true end
  | PDict d => match d with [] => false | _ :: _ => true end
  end.

(** [type(v).__name__], for the texts of [AttributeError] and [TypeError]. *)
Definition type_name (v : pyval) : string :=
  match v with
  | PNone => "NoneType"
  | PBool _ => "bool"
  | PInt _ => "int"
  | PFloat _ => "float"
  | PStr _ => "str"
  | PList _ => "list"
  | PDict _ => "dict"
  end.

Fixpoint dict_lookup (key : string) (d : list (string * pyval)) : option pyval :=
  match d with
  | [] => None
  | (k, v) :: d' => if String.eqb k key then Some v else dict_lookup key d'
  end.

(** [v.get(key, default)]: only a [dict] has the method. *)
Definition py_get (v : pyval) (key : string) (dflt : pyval) : outcome pyval :=
  match v with
  | PDict d => Returns (default dflt (dict_lookup key d))
  | _ => Raises ("'" +:+ type_name v +:+ "' object has no attribute 'get'")
  end.

(** The first code point of a UTF-8 string: its leading byte and the
    continuation bytes (10xxxxxx) that follow it. *)
Definition is_continuation (c : ascii) : bool :=
  let n := N_of_ascii c in ((128 <=? n) && (n <? 192))%N.

Fixpoint leading_continuations (s : string) : string :=
  match s with
  | String c s' => if is_continuation c then String c (leading_continuations s') else ""
  | EmptyString => ""
  end.

(** [v[0]]. *)
Definition py_item0 (v : pyval) : outcome pyval :=
  match v with
  | PList (x :: _) => Returns x
  | PList [] => Raises "list index out of range"
  | PStr (String c s) => Returns (PStr (String c (leading_continuations s)))
  | PStr EmptyString => Raises "string index out of range"
  | PDict _ => Raises "0"
  | _ => Raises ("'" +:+ type_name v +:+ "' object is not subscriptable")
  end.

(** ** The environment *)

(** A [requests.Response], as far as the script reads it: the status, what
    [json()] gives, the pieces that [iter_content(n)] yields, and the
    exception that (possibly) cuts the stream after them.  The size of the
    pieces is the library's business: [n] is passed on to it, and a piece
    may be shorter or longer than [n]. *)
Record Response : Type := {
  status_code : Z;
  json : outcome pyval;
  iter_content : nat -> list (list byte);
  broken : option string
}.

(** The calls the script makes to the outside, in the order it makes
    them. *)
Inductive Event : Type :=
  | EMakedirs (dir : string)
  | EGet (url : pyval) (stream : bool)
  | EOpen (path : string)
  | EWrite (path : string) (chunk : list byte)
  | EClose (path : string).

(** The outside world answers each call knowing the calls made before it.
    [os_makedirs], [os_open], [os_write] and [os_close] give [None] when
    the call succeeds and the text of the exception when it raises.
    [py_repr] is the interpreter's [str()] of floats, lists and dicts. *)
Record Env : Type := {
  requests_get : list Event -> pyval -> bool -> outcome Response;
  os_makedirs : list Event -> string -> option string;
  os_open : list Event -> string -> option string;
  os_write : list Event -> string -> list byte -> option string;
  os_close : list Event -> string -> option string;
  py_repr : pyval -> string
}.

(** ** The state of a run *)

Record State : Type := {
  fs : gmap string (list byte);
  stdout : list string;
  trace : list Event
}.

Definition M (A : Type) : Type := State -> A * State.

Definition ret {A} (a : A) : M A := fun st => (a, st).
Definition bind {A B} (m : M A) (k : A -> M B) : M B :=
  fun st => let (a, st') := m st in k a st'.

Declare Scope run_scope.
Delimit Scope run_scope with run.
Notation "x <- m ;; k" := (bind m (fun x => k))
  (at level 100, m at next level, right associativity) : run_scope.
Notation "m ;;; k" := (bind m (fun _ => k))
  (at level 100, right associativity) : run_scope.
Local Open Scope run_scope.

Definition log (e : Event) (st : State) : State :=
  {| fs := fs st; stdout := stdout st; trace := trace st ++ [e] |}.

(** [print(line)], on a standard output that accepts every line.  The
    module [Stdout] below has the script on one that may refuse a line. *)
Definition print (line : string) : M unit :=
  fun st => (tt, {| fs := fs st; stdout := stdout st ++ [line]; trace := trace st |}).

(** ** The catalog *)

Record Model : Type := {
  name : string;
  releaseYear : Z;
  image : string
}.

Record Brand : Type := {
  brand : string;
  models : list Model
}.

Definition mk (n : string) (y : Z) (i : string) : Model :=
  {| name := n; releaseYear := y; image := i |}.

(** The literal of lines 6-299. *)
Definition car_database : list Brand := [
  {| brand := "Toyota"; models := [
      mk "Corolla" 1966 "src/assets/car_images/toyota_corolla.jpg";
      mk "Camry" 1982 "src/assets/car_images/toyota_camry.jpg";
      mk "Prius" 1997 "src/assets/car_images/toyota_prius.jpg";
      mk "RAV4" 1994 "src/assets/car_images/toyota_rav4.jpg";
      mk "Highlander" 2000 "src/assets/car_images/toyota_highlander.jpg";
      mk "Land Cruiser" 1951 "src/assets/car_images/toyota_land_cruiser.jpg";
      mk "Supra" 1978 "src/assets/car_images/toyota_supra.jpg";
      mk "Yaris" 1999 "src/assets/car_images/toyota_yaris.jpg" ] |};
  {| brand := "Ford"; models := [
      mk "F-150" 1948 "src/assets/car_images/ford_f150.jpg";
      mk "Mustang" 1964 "src/assets/car_images/ford_mustang.jpg";
      mk "Explorer" 1990 "src/assets/car_images/ford_explorer.jpg";
      mk "Focus" 1998 "src/assets/car_images/ford_focus.jpg";
      mk "Escape" 2000 "src/assets/car_images/ford_escape.jpg";
      mk "Bronco" 1966 "src/assets/car_images/ford_bronco.jpg";
      mk "Ranger" 1983 "src/assets/car_images/ford_ranger.jpg";
      mk "Fiesta" 1976 "src/assets/car_images/ford_fiesta.jpg" ] |};
  {| brand := "Honda"; models := [
      mk "Civic" 1972 "src/assets/car_images/honda_civic.jpg";
      mk "Accord" 1976 "src/assets/car_images/honda_accord.jpg";
      mk "CR-V" 1995 "src/assets/car_images/honda_crv.jpg";
      mk "Pilot" 2002 "src/assets/car_images/honda_pilot.jpg";
      mk "Fit" 2001 "src/assets/car_images/honda_fit.jpg";
      mk "Odyssey" 1994 "src/assets/car_images/honda_odyssey.jpg";
      mk "HR-V" 1998 "src/assets/car_images/honda_hrv.jpg";
      mk "Ridgeline" 2005 "src/assets/car_images/honda_ridgeline.jpg" ] |};
  {| brand := "Chevrolet"; models := [
      mk "Silverado" 1998 "src/assets/car_images/chevrolet_silverado.jpg";
      mk "Malibu" 1964 "src/assets/car_images/chevrolet_malibu.jpg";
      mk "Equinox" 2004 "src/assets/car_images/chevrolet_equinox.jpg";
      mk "Tahoe" 1995 "src/assets/car_images/chevrolet_tahoe.jpg";
      mk "Impala" 1958 "src/assets/car_images/chevrolet_impala.jpg";
      mk "Camaro" 1966 "src/assets/car_images/chevrolet_camaro.jpg";
      mk "Suburban" 1935 "src/assets/car_images/chevrolet_suburban.jpg";
      mk "Blazer" 1969 "src/assets/car_images/chevrolet_blazer.jpg" ] |};
  {| brand := "BMW"; models := [
      mk "3 Series" 1975 "src/assets/car_images/bmw_3_series.jpg";
      mk "5 Series" 1972 "src/assets/car_images/bmw_5_series.jpg";
      mk "X5" 1999 "src/assets/car_images/bmw_x5.jpg";
      mk "X3" 2003 "src/assets/car_images/bmw_x3.jpg";
      mk "7 Series" 1977 "src/assets/car_images/bmw_7_series.jpg";
      mk "1 Series" 2004 "src/assets/car_images/bmw_1_series.jpg";
      mk "Z4" 2002 "src/assets/car_images/bmw_z4.jpg";
      mk "i3" 2013 "src/assets/car_images/bmw_i3.jpg" ] |};
  {| brand := "Mercedes-Benz"; models := [
      mk "C-Class" 1993 "src/assets/car_images/mercedes_benz_c_class.jpg";
      mk "E-Class" 1953 "src/assets/car_images/mercedes_benz_e_class.jpg";
      mk "S-Class" 1972 "src/assets/car_images/mercedes_benz_s_class.jpg";
      mk "GLC" 2015 "src/assets/car_images/mercedes_benz_glc.jpg";
      mk "GLE" 1997 "src/assets/car_images/mercedes_benz_gle.jpg";
      mk "A-Class" 1997 "src/assets/car_images/mercedes_benz_a_class.jpg";
      mk "CLA" 2013 "src/assets/car_images/mercedes_benz_cla.jpg";
      mk "G-Class" 1979 "src/assets/car_images/mercedes_benz_g_class.jpg" ] |};
  {| brand := "Audi"; models := [
      mk "A4" 1994 "src/assets/car_images/audi_a4.jpg";
      mk "A6" 1994 "src/assets/car_images/audi_a6.jpg";
      mk "Q5" 2008 "src/assets/car_images/audi_q5.jpg";
      mk "Q7" 2005 "src/assets/car_images/audi_q7.jpg";
      mk "A3" 1996 "src/assets/car_images/audi_a3.jpg";
      mk "TT" 1998 "src/assets/car_images/audi_tt.jpg";
      mk "R8" 2006 "src/assets/car_images/audi_r8.jpg";
      mk "Q3" 2011 "src/assets/car_images/audi_q3.jpg" ] |};
  {| brand := "Nissan"; models := [
      mk "Altima" 1992 "src/assets/car_images/nissan_altima.jpg";
      mk "Sentra" 1982 "src/assets/car_images/nissan_sentra.jpg";
      mk "Rogue" 2007 "src/assets/car_images/nissan_rogue.jpg";
      mk "Pathfinder" 1985 "src/assets/car_images/nissan_pathfinder.jpg";
      mk "Leaf" 2010 "src/assets/car_images/nissan_leaf.jpg";
      mk "370Z" 2009 "src/assets/car_images/nissan_370z.jpg";
      mk "GT-R" 2007 "src/assets/car_images/nissan_gtr.jpg";
      mk "Murano" 2002 "src/assets/car_images/nissan_murano.jpg" ] |};
  {| brand := "Hyundai"; models := [
      mk "Elantra" 1990 "src/assets/car_images/hyundai_elantra.jpg";
      mk "Sonata" 1985 "src/assets/car_images/hyundai_sonata.jpg";
      mk "Tucson" 2004 "src/assets/car_images/hyundai_tucson.jpg";
      mk "Santa Fe" 2000 "src/assets/car_images/hyundai_santa_fe.jpg";
      mk "Kona" 2017 "src/assets/car_images/hyundai_kona.jpg";
      mk "Veloster" 2011 "src/assets/car_images/hyundai_veloster.jpg";
      mk "Palisade" 2018 "src/assets/car_images/hyundai_palisade.jpg";
      mk "Ioniq" 2016 "src/assets/car_images/hyundai_ioniq.jpg" ] |};
  {| brand := "Volkswagen"; models := [
      mk "Golf" 1974 "src/assets/car_images/volkswagen_golf.jpg";
      mk "Passat" 1973 "src/assets/car_images/volkswagen_passat.jpg";
      mk "Tiguan" 2007 "src/assets/car_images/volkswagen_tiguan.jpg";
      mk "Jetta" 1979 "src/assets/car_images/volkswagen_jetta.jpg";
      mk "Atlas" 2017 "src/assets/car_images/volkswagen_atlas.jpg";
      mk "Beetle" 1938 "src/assets/car_images/volkswagen_beetle.jpg";
      mk "Touareg" 2002 "src/assets/car_images/volkswagen_touareg.jpg";
      mk "ID.4" 2020 "src/assets/car_images/volkswagen_id4.jpg" ] |};
  {| brand := "Tesla"; models := [
      mk "Model S" 2012 "src/assets/car_images/tesla_model_s.jpg";
      mk "Model 3" 2017 "src/assets/car_images/tesla_model_3.jpg";
      mk "Model X" 2015 "src/assets/car_images/tesla_model_x.jpg";
      mk "Model Y" 2020 "src/assets/car_images/tesla_model_y.jpg";
      mk "Cybertruck" 2021 "src/assets/car_images/tesla_cybertruck.jpg";
      mk "Roadster" 2008 "src/assets/car_images/tesla_roadster.jpg" ] |};
  {| brand := "Subaru"; models := [
      mk "Outback" 1994 "src/assets/car_images/subaru_outback.jpg";
      mk "Forester" 1997 "src/assets/car_images/subaru_forester.jpg";
      mk "Impreza" 1992 "src/assets/car_images/subaru_impreza.jpg";
      mk "Crosstrek" 2012 "src/assets/car_images/subaru_crosstrek.jpg";
      mk "Ascent" 2018 "src/assets/car_images/subaru_ascent.jpg";
      mk "BRZ" 2012 "src/assets/car_images/subaru_brz.jpg";
      mk "Legacy" 1989 "src/assets/car_images/subaru_legacy.jpg" ] |};
  {| brand := "Mazda"; models := [
      mk "Mazda3" 2003 "src/assets/car_images/mazda_mazda3.jpg";
      mk "Mazda6" 2002 "src/assets/car_images/mazda_mazda6.jpg";
      mk "CX-5" 2012 "src/assets/car_images/mazda_cx5.jpg";
      mk "CX-9" 2006 "src/assets/car_images/mazda_cx9.jpg";
      mk "MX-5 Miata" 1989 "src/assets/car_images/mazda_mx5_miata.jpg";
      mk "CX-30" 2019 "src/assets/car_images/mazda_cx30.jpg";
      mk "RX-8" 2003 "src/assets/car_images/mazda_rx8.jpg" ] |};
  {| brand := "Kia"; models := [
      mk "Soul" 2008 "src/assets/car_images/kia_soul.jpg";
      mk "Sportage" 1993 "src/assets/car_images/kia_sportage.jpg";
      mk "Sorento" 2002 "src/assets/car_images/kia_sorento.jpg";
      mk "Optima" 2000 "src/assets/car_images/kia_optima.jpg";
      mk "Telluride" 2019 "src/assets/car_images/kia_telluride.jpg";
      mk "Stinger" 2017 "src/assets/car_images/kia_stinger.jpg";
      mk "Seltos" 2019 "src/assets/car_images/kia_seltos.jpg" ] |};
  {| brand := "Jeep"; models := [
      mk "Wrangler" 1986 "src/assets/car_images/jeep_wrangler.jpg";
      mk "Cherokee" 1974 "src/assets/car_images/jeep_cherokee.jpg";
      mk "Grand Cherokee" 1992 "src/assets/car_images/jeep_grand_cherokee.jpg";
      mk "Compass" 2006 "src/assets/car_images/jeep_compass.jpg";
      mk "Renegade" 2014 "src/assets/car_images/jeep_renegade.jpg";
      mk "Gladiator" 2019 "src/assets/car_images/jeep_gladiator.jpg" ] |};
  {| brand := "Porsche"; models := [
      mk "911" 1964 "src/assets/car_images/porsche_911.jpg";
      mk "Cayenne" 2002 "src/assets/car_images/porsche_cayenne.jpg";
      mk "Macan" 2014 "src/assets/car_images/porsche_macan.jpg";
      mk "Panamera" 2009 "src/assets/car_images/porsche_panamera.jpg";
      mk "Taycan" 2019 "src/assets/car_images/porsche_taycan.jpg";
      mk "Boxster" 1996 "src/assets/car_images/porsche_boxster.jpg" ] |};
  {| brand := "Lexus"; models := [
      mk "RX" 1998 "src/assets/car_images/lexus_rx.jpg";
      mk "ES" 1989 "src/assets/car_images/lexus_es.jpg";
      mk "NX" 2014 "src/assets/car_images/lexus_nx.jpg";
      mk "GX" 2002 "src/assets/car_images/lexus_gx.jpg";
      mk "LS" 1989 "src/assets/car_images/lexus_ls.jpg";
      mk "IS" 1999 "src/assets/car_images/lexus_is.jpg" ] |};
  {| brand := "Volvo"; models := [
      mk "XC90" 2002 "src/assets/car_images/volvo_xc90.jpg";
      mk "XC60" 2008 "src/assets/car_images/volvo_xc60.jpg";
      mk "S60" 2000 "src/assets/car_images/volvo_s60.jpg";
      mk "V60" 2010 "src/assets/car_images/volvo_v60.jpg";
      mk "XC40" 2017 "src/assets/car_images/volvo_xc40.jpg";
      mk "C40" 2021 "src/assets/car_images/volvo_c40.jpg" ] |};
  {| brand := "Jaguar"; models := [
      mk "XF" 2007 "src/assets/car_images/jaguar_xf.jpg";
      mk "XE" 2015 "src/assets/car_images/jaguar_xe.jpg";
      mk "F-Pace" 2016 "src/assets/car_images/jaguar_f_pace.jpg";
      mk "E-Pace" 2017 "src/assets/car_images/jaguar_e_pace.jpg";
      mk "I-Pace" 2018 "src/assets/car_images/jaguar_i_pace.jpg";
      mk "XJ" 1968 "src/assets/car_images/jaguar_xj.jpg" ] |};
  {| brand := "Peugeot"; models := [
      mk "208" 2012 "src/assets/car_images/peugeot_208.jpg";
      mk "308" 2007 "src/assets/car_images/peugeot_308.jpg";
      mk "508" 2010 "src/assets/car_images/peugeot_508.jpg";
      mk "2008" 2013 "src/assets/car_images/peugeot_2008.jpg";
      mk "3008" 2008 "src/assets/car_images/peugeot_3008.jpg";
      mk "5008" 2009 "src/assets/car_images/peugeot_5008.jpg";
      mk "Rifter" 2018 "src/assets/car_images/peugeot_rifter.jpg" ] |};
  {| brand := "Fiat"; models := [
      mk "500" 1957 "src/assets/car_images/fiat_500.jpg";
      mk "Panda" 1980 "src/assets/car_images/fiat_panda.jpg";
      mk "Tipo" 1988 "src/assets/car_images/fiat_tipo.jpg";
      mk "Punto" 1993 "src/assets/car_images/fiat_punto.jpg";
      mk "Doblo" 2000 "src/assets/car_images/fiat_doblo.jpg";
      mk "Toro" 2016 "src/assets/car_images/fiat_toro.jpg";
      mk "Strada" 1996 "src/assets/car_images/fiat_strada.jpg" ] |};
  {| brand := "Renault"; models := [
      mk "Clio" 1990 "src/assets/car_images/renault_clio.jpg";
      mk "Megane" 1995 "src/assets/car_images/renault_megane.jpg";
      mk "Captur" 2013 "src/assets/car_images/renault_captur.jpg";
      mk "Kadjar" 2015 "src/assets/car_images/renault_kadjar.jpg";
      mk "Twingo" 1992 "src/assets/car_images/renault_twingo.jpg";
      mk "Scenic" 1996 "src/assets/car_images/renault_scenic.jpg";
      mk "Koleos" 2007 "src/assets/car_images/renault_koleos.jpg" ] |};
  {| brand := "Alfa Romeo"; models := [
      mk "Giulia" 2015 "src/assets/car_images/alfa_romeo_giulia.jpg";
      mk "Stelvio" 2016 "src/assets/car_images/alfa_romeo_stelvio.jpg";
      mk "Tonale" 2022 "src/assets/car_images/alfa_romeo_tonale.jpg";
      mk "4C" 2013 "src/assets/car_images/alfa_romeo_4c.jpg";
      mk "MiTo" 2008 "src/assets/car_images/alfa_romeo_mito.jpg";
      mk "159" 2005 "src/assets/car_images/alfa_romeo_159.jpg";
      mk "Brera" 2005 "src/assets/car_images/alfa_romeo_brera.jpg" ] |};
  {| brand := "Citroën"; models := [
      mk "C3" 2002 "src/assets/car_images/citroen_c3.jpg";
      mk "C4" 2004 "src/assets/car_images/citroen_c4.jpg";
      mk "C5" 2001 "src/assets/car_images/citroen_c5.jpg";
      mk "Berlingo" 1996 "src/assets/car_images/citroen_berlingo.jpg";
      mk "Cactus" 2014 "src/assets/car_images/citroen_cactus.jpg";
      mk "DS3" 2009 "src/assets/car_images/citroen_ds3.jpg";
      mk "Ami" 2020 "src/assets/car_images/citroen_ami.jpg" ] |} ].

(** Line 302 and line 336. *)
Definition image_dir : string := "src/assets/car_images".

Definition SERPAPI_KEY : string :=
  "8fd8e4fcce08f42d093496b0faf0377d27a15f18a84caf1f23f0be36976e3cb0".

(** ** The script *)

Section Script.

Variable E : Env.

(** [requests.get(url)] and [requests.get(url, stream=True)] *)
Definition get (url : pyval) (stream : bool) : M (outcome Response) :=
  fun st => (requests_get E (trace st) url stream, log (EGet url stream) st).

(** [os.makedirs(dir, exist_ok=True)] *)
Definition makedirs (dir : string) : M (outcome unit) :=
  fun st =>
    (match os_makedirs E (trace st) dir with
     | None => Returns tt
     | Some e => Raises e
     end, log (EMakedirs dir) st).

(** [open(path, "wb")]: the file is created, or emptied if it was there. *)
Definition open_wb (path : string) : M (outcome unit) :=
  fun st =>
    match os_open E (trace st) path with
    | Some e => (Raises e, log (EOpen path) st)
    | None =>
        (Returns tt,
         {| fs := <[path := []]> (fs st); stdout := stdout st;
            trace := trace st ++ [EOpen path] |})
    end.

(** [file.write(chunk)] on the file opened at [path]. *)
Definition file_write (path : string) (chunk : list byte) : M (outcome unit) :=
  fun st =>
    match os_write E (trace st) path chunk with
    | Some e => (Raises e, log (EWrite path chunk) st)
    | None =>
        (Returns tt,
         {| fs := <[path := default [] (fs st !! path) ++ chunk]> (fs st);
            stdout := stdout st;
            trace := trace st ++ [EWrite path chunk] |})
    end.

(** The closing of the file opened at [path], at the end of a [with]
    block.  The file system holds the bytes handed to [write]; whether
    they reached the disk when the closing raises is not modelled. *)
Definition file_close (path : string) : M (outcome unit) :=
  fun st =>
    (match os_close E (trace st) path with
     | None => Returns tt
     | Some e => Raises e
     end, log (EClose path) st).

(** The text an f-string puts for [{v}]. *)
Definition format_value (v : pyval) : string :=
  match v with
  | PStr s => s
  | PNone => "None"
  | PBool true => "True"
  | PBool false => "False"
  | PInt z => pretty z
  | _ => py_repr E v
  end.

(** *** Exceptions inside a [try] block *)

Definition MX (A : Type) : Type := M (outcome A).

Definition retx {A} (a : A) : MX A := ret (Returns a).

(** Sequencing that stops at the first exception. *)
Definition bindx {A B} (m : MX A) (k : A -> MX B) : MX B :=
  r <- m ;;
  match r with
  | Returns a => k a
  | Raises e => ret (Raises e)
  end.

Notation "x <-! m ;; k" := (bindx m (fun x => k))
  (at level 100, m at next level, right associativity) : run_scope.

(** A pure call that may raise. *)
Definition call {A} (o : outcome A) : MX A := ret o.

(** [try: body / except Exception as e: handler e], where the body either
    completes with a value or raises. *)
Definition try_except {A} (body : MX A) (handler : string -> M A) : M A :=
  r <- body ;;
  match r with
  | Returns a => ret a
  | Raises e => handler e
  end.

(** *** The [with] block of lines 310-312 *)

(** [for chunk in it: file.write(chunk)], where the iterator yields
    [pieces] and then stops or raises [cut]. *)
Fixpoint write_chunks (path : string) (cs : list (list byte)) : MX unit :=
  match cs with
  | [] => retx tt
  | chunk :: cs' => _ <-! file_write path chunk ;; write_chunks path cs'
  end.

Definition for_chunk_write (path : string) (pieces : list (list byte))
    (cut : option string) : MX unit :=
  _ <-! write_chunks path pieces ;;
  match cut with
  | Some e => ret (Raises e)
  | None => retx tt
  end.

(** [with open(path, "wb") as file: body]: once opened the file is closed
    however the body ends, and an exception of the closing replaces the
    outcome of the body. *)
Definition with_open_wb {A} (path : string) (body : MX A) : MX A :=
  _ <-! open_wb path ;;
  r <- body ;;
  c <- file_close path ;;
  match c with
  | Returns _ => ret r
  | Raises e => ret (Raises e)
  end.

(** *** [download_image], lines 306-317 *)

(** The [try] block, lines 308-315. *)
Definition download_image_try (url : pyval) (path : string) : MX unit :=
  response <-! get url true ;;
  if status_code response =? 200 then
    _ <-! with_open_wb path
            (for_chunk_write path (iter_content response 1024) (broken response)) ;;
    print ("Downloaded: " +:+ path) ;;;
    retx tt
  else
    print ("Failed to download " +:+ format_value url +:+ ": "
           +:+ pretty (status_code response)) ;;;
    retx tt.

(** The handler, line 317. *)
Definition download_image_except (url : pyval) (e : string) : M unit :=
  print ("Error downloading " +:+ format_value url +:+ ": " +:+ e).

Definition download_image (url : pyval) (path : string) : M unit :=
  try_except (download_image_try url path) (download_image_except url).

(** *** [fetch_image_url], lines 320-333 *)

(** The URL of line 323. *)
Definition search_url (brand model api_key : string) : string :=
  let query := brand +:+ " " +:+ model in
  "https://serpapi.com/search.json?q=" +:+ query
    +:+ "&engine=google_images&ijn=0&api_key=" +:+ api_key.

(** Lines 325-329, which touch nothing outside: [Some v] when line 329
    returns [v], [None] when control leaves the [if]s for line 330. *)
Definition first_thumbnail (response : Response) : outcome (option pyval) :=
  if status_code response =? 200 then
    data <-? json response ;;
    images_results <-? py_get data "images_results" (PList []) ;;
    if truthy images_results then
      first <-? py_item0 images_results ;;
      thumbnail <-? py_get first "thumbnail" PNone ;;
      Returns (Some thumbnail)
    else Returns None
  else Returns None.

(** The [try] block, lines 322-330; a block that ends without [return]
    goes on to line 333, [return None]. *)
Definition fetch_image_url_try (brand model api_key : string) : MX pyval :=
  response <-! get (PStr (search_url brand model api_key)) false ;;
  found <-! call (first_thumbnail response) ;;
  match found with
  | Some thumbnail => retx thumbnail
  | None =>
      print ("No image found for " +:+ brand +:+ " " +:+ model) ;;;
      retx PNone
  end.

(** The handler, line 332, then line 333. *)
Definition fetch_image_url_except (brand model : string) (e : string) : M pyval :=
  print ("Error fetching image URL for " +:+ brand +:+ " " +:+ model
         +:+ ": " +:+ e) ;;;
  ret PNone.

Definition fetch_image_url (brand model api_key : string) : M pyval :=
  try_except (fetch_image_url_try brand model api_key)
    (fetch_image_url_except brand model).

(** *** The loop of lines 339-346 *)

Fixpoint for_each {A} (body : A -> M unit) (l : list A) : M unit :=
  match l with
  | [] => ret tt
  | x :: l' => body x ;;; for_each body l'
  end.

(** The body of the inner loop, for one model of one brand. *)
Definition process_model (brand_name : string) (model : Model) : M unit :=
  let image_path := image model in
  let model_name := name model in
  image_url <- fetch_image_url brand_name model_name SERPAPI_KEY ;;
  if truthy image_url then download_image image_url image_path else ret tt.

Definition main_loop (database : list Brand) : M unit :=
  for_each (fun b => for_each (process_model (brand b)) (models b)) database.

(** The whole module: line 303, which aborts the run when it raises, then
    the loop. *)
Definition script : MX unit :=
  _ <-! makedirs image_dir ;;
  main_loop car_database ;;;
  retx tt.

End Script.

(** ** Reading a run *)

(** What a run added to the trace and to standard output. *)
Definition new_events (st st' : State) : list Event :=
  drop (length (trace st)) (trace st').

Definition new_lines (st st' : State) : list string :=
  drop (length (stdout st)) (stdout st').

(** [contains needle hay]: [needle] occurs in [hay]. *)
Fixpoint contains (needle hay : string) : bool :=
  String.prefix needle hay
  || match hay with
     | String _ hay' => contains needle hay'
     | EmptyString => false
     end.

(** The search requests of a trace, in order. *)
Definition searches (t : list Event) : list pyval :=
  omap (fun e => match e with EGet url false => Some url | _ => None end) t.

(** The event belongs to a call [download_image _ path]. *)
Definition download_event (path : string) (e : Event) : Prop :=
  match e with
  | EGet _ true => True
  | EOpen p | EWrite p _ | EClose p => p = path
  | _ => False
  end.

(** The (brand, model) pairs of a catalog in the order of the two loops. *)
Definition entries (database : list Brand) : list (string * Model) :=
  flat_map (fun b => map (pair (brand b)) (models b)) database.

Definition query_of (entry : string * Model) : pyval :=
  PStr (search_url (fst entry) (name (snd entry)) SERPAPI_KEY).

(** [path] names a file placed directly in [dir]. *)
Definition directly_under (dir path : string) : bool :=
  let root := dir +:+ "/" in
  let file := String.substring (String.length root)
                (String.length path - String.length root) path in
  String.prefix root path
  && negb (String.eqb file "")
  && negb (contains "/" file)
  && negb (String.eqb file "..").

(** Two catalogs that differ at most in the release years. *)
Definition same_but_year (m1 m2 : Model) : Prop :=
  name m1 = name m2 /\ image m1 = image m2.

Definition same_but_years (b1 b2 : Brand) : Prop :=
  brand b1 = brand b2 /\ Forall2 same_but_year (models b1) (models b2).

(** ** Concrete environments *)

Definition json_response (status : Z) (v : pyval) : Response :=
  {| status_code := status; json := Returns v;
     iter_content := fun _ => []; broken := None |}.

(** A binary body that arrives in the pieces given. *)
Definition pieces_response (status : Z) (pieces : list (list byte)) : Response :=
  {| status_code := status;
     json := Raises "Expecting value: line 1 column 1 (char 0)";
     iter_content := fun _ => pieces; broken := None |}.

(** A binary body that arrives in one piece, if it is not empty. *)
Definition image_response (status : Z) (body : list byte) : Response :=
  pieces_response status match body with [] => [] | _ :: _ => [body] end.

(** One answer to every search and one to every download; the file system
    never fails. *)
Definition env_of (search download : outcome Response) : Env :=
  {| requests_get := fun _ _ stream => if stream then download else search;
     os_makedirs := fun _ _ => None;
     os_open := fun _ _ => None;
     os_write := fun _ _ _ => None;
     os_close := fun _ _ => None;
     py_repr := fun _ => "<object>" |}.

Definition st0 : State := {| fs := ∅; stdout := []; trace := [] |}.

Definition results (l : list pyval) : pyval := PDict [("images_results", PList l)].

Definition jpegdata : list byte := list_byte_of_string "JPEGDATA".

Definition found_x : outcome Response :=
  Returns (json_response 200 (results [PDict [("thumbnail", PStr "http://x/img.jpg")]])).

Definition corolla : Model := mk "Corolla" 1966 "out/toyota_corolla.jpg".

(** The paths a trace opens, writes or closes. *)
Definition written_paths (t : list Event) : list string :=
  omap (fun e => match e with
                 | EOpen p | EWrite p _ | EClose p => Some p
                 | _ => None
                 end) t.

(** The image paths of a catalog. *)
Definition image_paths (database : list Brand) : list string :=
  map (fun entry => image (snd entry)) (entries database).

(** The entry did not pass in silence: its path was opened or written, or
    a printed line holds both its brand and its model name. *)
Definition outcome_reported (E : Env) (b : string) (m : Model) (st : State) : bool :=
  let st' := (process_model E b m st).2 in
  bool_decide (image m ∈ written_paths (new_events st st'))
  || existsb (fun line => contains b line && contains (name m) line)
       (new_lines st st').

(** A line printed by the fetch holds the status code. *)
Definition status_reported (E : Env) (b m key : string) (st : State) (code : Z) : bool :=
  existsb (contains (pretty code))
    (new_lines st (fetch_image_url E b m key st).2).

(** The search finds [http://x/img.jpg], which holds the bytes JPEGDATA. *)
Definition env_found : Env :=
  env_of found_x (Returns (image_response 200 jpegdata)).

(** The search finds [http://x/img.jpg], which is gone. *)
Definition env_gone : Env :=
  env_of found_x (Returns (image_response 404 [])).

(** The search answers 500. *)
Definition env_search_500 : Env :=
  env_of (Returns (json_response 500 (PDict []))) (Raises "unreachable").

(** The search finds nothing. *)
Definition env_no_results : Env :=
  env_of (Returns (json_response 200 (results []))) (Raises "unreachable").

(** The first result has no thumbnail, or an empty one. *)
Definition env_no_thumbnail : Env :=
  env_of (Returns (json_response 200 (results [PDict [("title", PStr "Corolla")]])))
    (Raises "unreachable").

Definition env_empty_thumbnail : Env :=
  env_of (Returns (json_response 200 (results [PDict [("thumbnail", PStr "")]])))
    (Raises "unreachable").

(** No network, and a disk that refuses everything. *)
Definition env_offline : Env :=
  {| requests_get := fun _ _ _ => Raises "Connection refused";
     os_makedirs := fun _ _ => None;
     os_open := fun _ _ => Some "Permission denied";
     os_write := fun _ _ _ => Some "No space left on device";
     os_close := fun _ _ => None;
     py_repr := fun _ => "<object>" |}.

(** A catalog of one entry, and the same with another year. *)
Definition toyota : list Brand :=
  [ {| brand := "Toyota"; models := [corolla] |} ].

Definition toyota' : list Brand :=
  [ {| brand := "Toyota"; models := [mk "Corolla" 2024 "out/toyota_corolla.jpg"] |} ].

(** ** Further readings of a run *)

(** The download requests of a trace, in order. *)
Definition downloads (t : list Event) : list pyval :=
  omap (fun e => match e with EGet url true => Some url | _ => None end) t.

(** The event opens, writes or closes [path]. *)
Definition file_event (path : string) (e : Event) : Prop :=
  match e with
  | EOpen p | EWrite p _ | EClose p => p = path
  | _ => False
  end.

(** The body of the two loops, on one entry. *)
Definition process_entry (E : Env) (entry : string * Model) : M unit :=
  process_model E (fst entry) (snd entry).

(** ** Further environments *)

(** The image arrives, then the connection drops. *)
Definition env_cut : Env :=
  env_of found_x
    (Returns {| status_code := 200;
                json := Raises "Expecting value: line 1 column 1 (char 0)";
                iter_content := fun _ => [jpegdata];
                broken := Some "Connection broken" |}).

(** The image is there, the directory cannot be made nor the file opened. *)
Definition env_readonly : Env :=
  {| requests_get := fun _ _ stream =>
       if stream then Returns (image_response 200 jpegdata) else found_x;
     os_makedirs := fun _ _ => Some "Permission denied";
     os_open := fun _ _ => Some "Permission denied";
     os_write := fun _ _ _ => None;
     os_close := fun _ _ => None;
     py_repr := fun _ => "<object>" |}.


(** The thumbnail is an empty file. *)
Definition env_empty_image : Env :=
  env_of found_x (Returns (image_response 200 [])).

(** Searches answered 200 with a body that is not JSON, with a JSON list,
    with an object without results, with results that are a string, and
    with a first result that is a string. *)
Definition env_html : Env :=
  env_of (Returns (image_response 200 [])) (Raises "unreachable").

Definition env_body_list : Env :=
  env_of (Returns (json_response 200 (PList [PInt 1]))) (Raises "unreachable").

Definition env_no_key : Env :=
  env_of (Returns (json_response 200 (PDict [("error", PStr "quota")])))
    (Raises "unreachable").

Definition env_results_string : Env :=
  env_of (Returns (json_response 200 (PDict [("images_results", PStr "none")])))
    (Raises "unreachable").

Definition env_string_result : Env :=
  env_of (Returns (json_response 200 (results [PStr "http://x/img.jpg"])))
    (Raises "unreachable").

(** A state with a file that no entry of the catalog names. *)
Definition st_notes : State :=
  {| fs := {[ "notes.txt" := jpegdata ]}; stdout := []; trace := [] |}.

(** ** The script on a standard output that may refuse a line *)

(** [print] raises when the stream cannot take the line: an encoding that
    lacks a character ([UnicodeEncodeError]), a closed pipe.  The [print]s
    of lines 313, 315 and 330 stand inside a [try]; those of the handlers,
    lines 317 and 332, do not, and the loop of lines 339-346 has no [try]
    of its own.  [Stdout] has the same functions as above with such a
    [print]: each now ends with a value or with an exception, and the
    loop stops at the first exception that reaches it. *)

Notation "x <-! m ;; k" := (bindx m (fun x => k))
  (at level 100, m at next level, right associativity) : run_scope.

(** A console answers each line knowing the lines it took before:
    [None] when it takes the line, the text of the exception otherwise. *)
Definition Console : Type := list string -> string -> option string.

Module Stdout.

Section Script.

Variable E : Env.
Variable console : Console.

(** [print(line)]: a line that is refused is not written. *)
Definition print (line : string) : MX unit :=
  fun st =>
    match console (stdout st) line with
    | None =>
        (Returns tt,
         {| fs := fs st; stdout := stdout st ++ [line]; trace := trace st |})
    | Some e => (Raises e, st)
    end.

(** [try: body / except Exception as e: handler e], where the handler may
    raise in its turn. *)
Definition try_except {A} (body : MX A) (handler : string -> MX A) : MX A :=
  r <- body ;;
  match r with
  | Returns a => retx a
  | Raises e => handler e
  end.

(** [download_image], lines 306-317 *)
Definition download_image_try (url : pyval) (path : string) : MX unit :=
  response <-! get E url true ;;
  if status_code response =? 200 then
    _ <-! with_open_wb E path
            (for_chunk_write E path (iter_content response 1024) (broken response)) ;;
    print ("Downloaded: " +:+ path)
  else
    print ("Failed to download " +:+ format_value E url +:+ ": "
           +:+ pretty (status_code response)).

Definition download_image_except (url : pyval) (e : string) : MX unit :=
  print ("Error downloading " +:+ format_value E url +:+ ": " +:+ e).

Definition download_image (url : pyval) (path : string) : MX unit :=
  try_except (download_image_try url path) (download_image_except url).

(** [fetch_image_url], lines 320-333 *)
Definition fetch_image_url_try (brand model api_key : string) : MX pyval :=
  response <-! get E (PStr (search_url brand model api_key)) false ;;
  found <-! call (first_thumbnail response) ;;
  match found with
  | Some thumbnail => retx thumbnail
  | None =>
      _ <-! print ("No image found for " +:+ brand +:+ " " +:+ model) ;;
      retx PNone
  end.

Definition fetch_image_url_except (brand model : string) (e : string) : MX pyval :=
  _ <-! print ("Error fetching image URL for " +:+ brand +:+ " " +:+ model
               +:+ ": " +:+ e) ;;
  retx PNone.

Definition fetch_image_url (brand model api_key : string) : MX pyval :=
  try_except (fetch_image_url_try brand model api_key)
    (fetch_image_url_except brand model).

(** The loop of lines 339-346: an exception ends it. *)
Fixpoint for_each {A} (body : A -> MX unit) (l : list A) : MX unit :=
  match l with
  | [] => retx tt
  | x :: l' => _ <-! body x ;; for_each body l'
  end.

Definition process_model (brand_name : string) (model : Model) : MX unit :=
  let image_path := image model in
  let model_name := name model in
  image_url <-! fetch_image_url brand_name model_name SERPAPI_KEY ;;
  if truthy image_url then download_image image_url image_path else retx tt.

Definition main_loop (database : list Brand) : MX unit :=
  for_each (fun b => for_each (process_model (brand b)) (models b)) database.

(** Line 303, then the loop. *)
Definition script : MX unit :=
  _ <-! makedirs E image_dir ;;
  main_loop car_database.

End Script.

End Stdout.

(** The console takes every line. *)
Definition accepts (console : Console) : Prop :=
  forall out line, console out line = None.

(** The state an entry leaves on such a standard output. *)
Definition after_entry (E : Env) (console : Console) (st : State)
    (entry : string * Model) : State :=
  (Stdout.process_model E console (fst entry) (snd entry) st).2.

(** A console that takes every line, and one whose encoding is ASCII. *)
Definition any_console : Console := fun _ _ => None.

Fixpoint is_ascii (s : string) : bool :=
  match s with
  | EmptyString => true
  | String c s' => (N_of_ascii c <? 128)%N && is_ascii s'
  end.

Definition ascii_console : Console :=
  fun _ line =>
    if is_ascii line then None
    else Some "'ascii' codec can't encode character".

(** ** The sizes of the writes *)

(** The chunks a trace writes to [path], in order. *)
Definition writes_to (path : string) (t : list Event) : list (list byte) :=
  omap (fun e => match e with
                 | EWrite p chunk => if String.eqb p path then Some chunk else None
                 | _ => None
                 end) t.

(** Pieces of size [n], the last one possibly shorter. *)
Fixpoint fixed_size (n : nat) (cs : list (list byte)) : bool :=
  match cs with
  | [] => true
  | [c] => (0 <? length c)%nat && (length c <=? n)%nat
  | c :: cs' => (length c =? n)%nat && fixed_size n cs'
  end.

(** The image arrives in the two pieces JPEG and DATA, as a chunked
    transfer delivers it. *)
Definition env_chunked : Env :=
  env_of found_x
    (Returns (pieces_response 200
                [list_byte_of_string "JPEG"; list_byte_of_string "DATA"])).

(** The image is there and every write is buffered; the closing of the
    file fails. *)
Definition env_close_fails : Env :=
  {| requests_get := fun _ _ stream =>
       if stream then Returns (image_response 200 jpegdata) else found_x;
     os_makedirs := fun _ _ => None;
     os_open := fun _ _ => None;
     os_write := fun _ _ _ => None;
     os_close := fun _ _ => Some "No space left on device";
     py_repr := fun _ => "<object>" |}.

(** A catalog whose only entry has a name outside ASCII. *)
Definition citroen : list Brand :=
  [ {| brand := "Citroën";
       models := [mk "C3" 2002 "src/assets/car_images/citroen_c3.jpg"] |} ].


(** * Proofs *)

Ltac run_step :=
  unfold download_image, download_image_try, download_image_except,
    fetch_image_url, fetch_image_url_try, fetch_image_url_except,
    with_open_wb, try_except, bindx, bind, call, retx, ret, print, get, log;
  simpl.

(** ** Writing the chunks *)

Lemma write_chunks_ok (E : Env) (path : string) (cs : list (list byte)) :
  (forall h c, os_write E h path c = None) ->
  forall (st : State) (acc : list byte),
  fs st !! path = Some acc ->
  write_chunks E path cs st =
    (Returns tt,
     {| fs := <[path := acc ++ concat cs]> (fs st);
        stdout := stdout st;
        trace := trace st ++ map (EWrite path) cs |}).
Proof.
  intros Hw. induction cs as [|c cs IH]; intros st acc Hacc; simpl.
  - unfold retx, ret. rewrite !app_nil_r, insert_id by done. by destruct st.
  - unfold bindx, bind, file_write. rewrite Hw, Hacc. simpl.
    erewrite IH by (simpl; apply lookup_insert_eq). simpl.
    rewrite insert_insert_eq, <- !app_assoc. reflexivity.
Qed.


(** ** What the two functions do in every environment *)

Lemma write_chunks_frame (E : Env) (path : string) (cs : list (list byte)) :
  forall (st : State),
  let r := write_chunks E path cs st in
  stdout r.2 = stdout st
  /\ (is_Some (fs st !! path) -> is_Some (fs r.2 !! path))
  /\ exists evs, trace r.2 = trace st ++ evs /\ Forall (download_event path) evs.
Proof.
  induction cs as [|c cs IH]; intros st; simpl.
  - split; [done|split; [done|]]. exists []. by rewrite app_nil_r.
  - unfold bindx, bind, file_write.
    destruct (os_write E (trace st) path c) as [e|]; simpl.
    + split; [done|split; [done|]]. exists [EWrite path c]. split; [done|].
      by repeat constructor.
    + match goal with |- context [write_chunks E path cs ?s] =>
        destruct (IH s) as (Hout & Hfs & evs & Htr & Hevs) end.
      simpl in *. split; [done|split].
      * intros _. apply Hfs. rewrite lookup_insert_eq. by eexists.
      * exists (EWrite path c :: evs). rewrite Htr, <- app_assoc. split; [done|].
        by constructor.
Qed.

(** The three ways a call of [download_image] ends: one line, always. *)
Lemma download_image_cases (E : Env) (url : pyval) (path : string) (st : State) :
  exists line evs,
    let st' := (download_image E url path st).2 in
    stdout st' = stdout st ++ [line]
    /\ trace st' = trace st ++ EGet url true :: evs
    /\ Forall (download_event path) evs
    /\ ((line = "Downloaded: " +:+ path /\ is_Some (fs st' !! path))
        \/ (exists code, code <> 200 /\ fs st' = fs st /\ evs = [] /\
             line = "Failed to download " +:+ format_value E url +:+ ": "
                    +:+ pretty code)
        \/ (exists e,
             line = "Error downloading " +:+ format_value E url +:+ ": " +:+ e)).
Proof.
  run_step.
  destruct (requests_get E (trace st) url true) as [response|e]; simpl.
  { destruct (status_code response =? 200) eqn:Hs; simpl.
    - unfold open_wb. simpl.
      match goal with |- context [os_open E ?h path] =>
        destruct (os_open E h path) as [e|] end; simpl.
      + eexists _, [EOpen path]. rewrite <- app_assoc.
        split; [reflexivity|split; [reflexivity|split]].
        * by repeat constructor.
        * right; right. by eexists.
      + unfold for_chunk_write, file_close. run_step.
        match goal with |- context [write_chunks E path ?c ?s] =>
          pose proof (write_chunks_frame E path c s) as (Hout & Hfs & evs & Htr & Hevs);
          destruct (write_chunks E path c s) as [r st1] end; simpl in *.
        assert (Hevs' : Forall (download_event path) (EOpen path :: evs ++ [EClose path])).
        { constructor; [done|]. apply Forall_app. split; [done|]. by repeat constructor. }
        assert (Hsome : is_Some (fs st1 !! path)).
        { apply Hfs. rewrite lookup_insert_eq. by eexists. }
        destruct r as [[]|e]; [destruct (broken response) as [e|]|]; simpl;
          (destruct (os_close E (trace st1) path) as [e'|]; simpl;
           eexists _, (EOpen path :: evs ++ [EClose path]);
           rewrite Hout, Htr, <- !app_assoc;
           (split; [reflexivity|split; [reflexivity|split; [exact Hevs'|]]]));
          try (right; right; by eexists).
        left. split; [done|]. exact Hsome.
    - eexists _, []. split; [reflexivity|split; [reflexivity|split]]; [constructor|].
      right; left.
      exists (status_code response). apply Z.eqb_neq in Hs. done. }
  eexists _, []. split; [reflexivity|split; [reflexivity|split]]; [constructor|].
  right; right. by eexists.
Qed.

(** The ways a call of [fetch_image_url] ends. *)
Lemma fetch_image_url_cases (E : Env) (b m key : string) (st : State) :
  let q := PStr (search_url b m key) in
  let r := requests_get E (trace st) q false in
  let v := (fetch_image_url E b m key st).1 in
  exists lines,
    (fetch_image_url E b m key st).2 =
      {| fs := fs st; stdout := stdout st ++ lines;
         trace := trace st ++ [EGet q false] |}
    /\ ((lines = [] /\ exists response,
           r = Returns response /\ first_thumbnail response = Returns (Some v))
        \/ (v = PNone /\ lines = ["No image found for " +:+ b +:+ " " +:+ m])
        \/ (v = PNone /\ exists e,
            lines = ["Error fetching image URL for " +:+ b +:+ " " +:+ m
                     +:+ ": " +:+ e])).
Proof.
  intros q r v. subst v. run_step. fold q r.
  destruct r as [response|e] eqn:Hr; simpl.
  - destruct (first_thumbnail response) as [[v|]|e] eqn:Hv; simpl.
    + exists []. rewrite app_nil_r. split; [done|]. left. split; [done|]. by eexists.
    + eexists. split; [done|]. right; left. done.
    + eexists. split; [done|]. right; right. split; [done|]. by eexists.
  - eexists. split; [done|]. right; right. split; [done|]. by eexists.
Qed.

(** ** The trace of the loop *)

Lemma download_events_searches (path : string) (evs : list Event) :
  Forall (download_event path) evs -> searches evs = [].
Proof.
  induction 1 as [|e evs He _ IH]; [done|].
  unfold searches in *. by destruct e as [| ? []| | |].
Qed.

Lemma download_events_paths (path : string) (evs : list Event) :
  Forall (download_event path) evs ->
  forall p, p ∈ written_paths evs -> p = path.
Proof.
  induction 1 as [|e evs He _ IH]; intros p Hp.
  - by apply elem_of_nil in Hp.
  - unfold written_paths in *.
    destruct e as [| ? []| | |]; simpl in *; try done; try (by apply IH);
      apply elem_of_cons in Hp as [->|Hp]; try done; by apply IH.
Qed.

Lemma searches_app (t1 t2 : list Event) :
  searches (t1 ++ t2) = searches t1 ++ searches t2.
Proof. apply omap_app. Qed.

Lemma written_paths_app (t1 t2 : list Event) :
  written_paths (t1 ++ t2) = written_paths t1 ++ written_paths t2.
Proof. apply omap_app. Qed.

Lemma searches_search (url : pyval) (t : list Event) :
  searches (EGet url false :: t) = url :: searches t.
Proof. reflexivity. Qed.

(** One search, then at most the events of one download to the model's
    path. *)
Lemma process_model_trace (E : Env) (b : string) (m : Model) (st : State) :
  exists evs,
    trace (process_model E b m st).2 = trace st ++ EGet (query_of (b, m)) false :: evs
    /\ Forall (download_event (image m)) evs.
Proof.
  unfold process_model, bind.
  pose proof (fetch_image_url_cases E b (name m) SERPAPI_KEY st) as (lines & Hst & _).
  destruct (fetch_image_url E b (name m) SERPAPI_KEY st) as [v st1]. simpl in Hst.
  destruct (truthy v).
  - destruct (download_image_cases E v (image m) st1) as (line & evs & _ & Htr & Hevs & _).
    simpl in Htr. exists (EGet v true :: evs). rewrite Htr, Hst. simpl.
    rewrite <- app_assoc. split; [done|]. by constructor.
  - exists []. rewrite Hst. simpl. done.
Qed.

Lemma for_each_models_trace (E : Env) (b : string) (ms : list Model) (st : State) :
  exists evs,
    trace (for_each (process_model E b) ms st).2 = trace st ++ evs
    /\ searches evs = map (fun m => query_of (b, m)) ms
    /\ (forall p, p ∈ written_paths evs -> p ∈ map image ms).
Proof.
  revert st. induction ms as [|m ms IH]; intros st; simpl.
  - exists []. rewrite app_nil_r. split; [done|split; [done|]].
    intros p Hp. by apply elem_of_nil in Hp.
  - unfold bind.
    destruct (process_model_trace E b m st) as (evs1 & Htr1 & Hevs1).
    destruct (process_model E b m st) as [[] st1]. simpl in Htr1.
    destruct (IH st1) as (evs2 & Htr2 & Hevs2 & Hp2).
    exists ((EGet (query_of (b, m)) false :: evs1) ++ evs2).
    rewrite Htr2, Htr1, <- app_assoc. split; [done|split].
    + rewrite searches_app, Hevs2, searches_search.
      by rewrite (download_events_searches _ _ Hevs1).
    + intros p. rewrite written_paths_app, elem_of_app. intros [Hp|Hp].
      * apply elem_of_cons. left.
        by apply (download_events_paths _ _ Hevs1).
      * apply elem_of_cons. right. by apply Hp2.
Qed.

Lemma main_loop_trace (E : Env) (database : list Brand) (st : State) :
  exists evs,
    trace (main_loop E database st).2 = trace st ++ evs
    /\ searches evs = map query_of (entries database)
    /\ (forall p, p ∈ written_paths evs -> p ∈ image_paths database).
Proof.
  unfold main_loop, image_paths. revert st.
  induction database as [|b db IH]; intros st; simpl.
  - exists []. rewrite app_nil_r. split; [done|split; [done|]].
    intros p Hp. by apply elem_of_nil in Hp.
  - unfold bind.
    destruct (for_each_models_trace E (brand b) (models b) st)
      as (evs1 & Htr1 & Hevs1 & Hp1).
    destruct (for_each (process_model E (brand b)) (models b) st) as [[] st1].
    simpl in Htr1.
    destruct (IH st1) as (evs2 & Htr2 & Hevs2 & Hp2).
    exists (evs1 ++ evs2). rewrite Htr2, Htr1, <- app_assoc. split; [done|split].
    + rewrite searches_app, Hevs1, Hevs2, map_app, map_map. done.
    + intros p. rewrite written_paths_app, map_app, map_map, !elem_of_app.
      intros [Hp|Hp]; [left; by apply Hp1 | right; by apply Hp2].
Qed.

(** ** The search *)

Lemma append_assoc (s1 s2 s3 : string) :
  (s1 +:+ s2) +:+ s3 = s1 +:+ s2 +:+ s3.
Proof.
  induction s1 as [|c s1 IH]; [done|].
  change (String c ((s1 +:+ s2) +:+ s3) = String c (s1 +:+ s2 +:+ s3)).
  by rewrite IH.
Qed.

(** The query URL, spelled out. *)
Lemma search_url_spelled (b m key : string) :
  search_url b m key =
    "https://serpapi.com/search.json?q=" +:+ b +:+ " " +:+ m
      +:+ "&engine=google_images&ijn=0&api_key=" +:+ key.
Proof. unfold search_url. cbv zeta. by rewrite append_assoc. Qed.

(** C4, as the code has it: a search answered with a status other than 200
    prints the line "No image found for <brand> <model>", which does not
    carry the status code, and returns [None]. *)
Theorem fetch_image_url_not_200 (E : Env) (b m key : string) (st : State)
    (response : Response) :
  requests_get E (trace st) (PStr (search_url b m key)) false = Returns response ->
  status_code response <> 200 ->
  fetch_image_url E b m key st =
    (PNone,
     {| fs := fs st;
        stdout := stdout st ++ ["No image found for " +:+ b +:+ " " +:+ m];
        trace := trace st ++ [EGet (PStr (search_url b m key)) false] |}).
Proof.
  intros Hget Hne. run_step. rewrite Hget. simpl.
  unfold first_thumbnail. apply Z.eqb_neq in Hne. rewrite Hne. reflexivity.
Qed.

(** The search answers 500 for Toyota Corolla. *)
Lemma fetch_image_url_not_200_witness :
  fetch_image_url env_search_500 "Toyota" "Corolla" SERPAPI_KEY st0 =
    (PNone,
     {| fs := ∅;
        stdout := ["No image found for Toyota Corolla"];
        trace := [EGet (PStr (search_url "Toyota" "Corolla" SERPAPI_KEY)) false] |}).
Proof.
  apply (fetch_image_url_not_200 env_search_500 "Toyota" "Corolla" SERPAPI_KEY st0
           (json_response 500 (PDict []))).
  - reflexivity.
  - simpl. lia.
Defined.

(** C4, as the specification words it, fails: the search answers 500 and
    no printed line holds "500". *)
Lemma fetch_image_url_status_unreported :
  requests_get env_search_500 (trace st0)
    (PStr (search_url "Toyota" "Corolla" SERPAPI_KEY)) false
    = Returns (json_response 500 (PDict []))
  /\ status_reported env_search_500 "Toyota" "Corolla" SERPAPI_KEY st0 500 = false.
Proof. split; reflexivity. Qed.

(** C5: the request goes to the URL that joins brand and model with one
    space, untouched, and a 200 answer whose [images_results] starts with
    an object gives that object's [thumbnail] ([None] when it has none),
    printing nothing. *)
Theorem fetch_image_url_first_thumbnail (E : Env) (b m key : string) (st : State) :
  let url :=
    PStr ("https://serpapi.com/search.json?q=" +:+ b +:+ " " +:+ m
          +:+ "&engine=google_images&ijn=0&api_key=" +:+ key) in
  trace (fetch_image_url E b m key st).2 = trace st ++ [EGet url false]
  /\ forall response d entry rest,
       requests_get E (trace st) url false = Returns response ->
       status_code response = 200 ->
       json response = Returns (PDict d) ->
       dict_lookup "images_results" d = Some (PList (PDict entry :: rest)) ->
       fetch_image_url E b m key st =
         (default PNone (dict_lookup "thumbnail" entry), log (EGet url false) st).
Proof.
  intros url. subst url. rewrite <- search_url_spelled. split.
  - destruct (fetch_image_url_cases E b m key st) as (lines & -> & _). reflexivity.
  - intros response d entry rest Hget H200 Hjson Hres. run_step.
    rewrite Hget. simpl.
    unfold first_thumbnail. rewrite H200, Hjson. simpl. rewrite Hres. reflexivity.
Qed.

(** The search finds one result, whose thumbnail is returned. *)
Lemma fetch_image_url_first_thumbnail_witness :
  fetch_image_url env_found "Toyota" "Corolla" "KEY" st0 =
    (PStr "http://x/img.jpg",
     {| fs := ∅; stdout := [];
        trace := [EGet (PStr "https://serpapi.com/search.json?q=Toyota Corolla&engine=google_images&ijn=0&api_key=KEY") false] |}).
Proof.
  destruct (fetch_image_url_first_thumbnail env_found "Toyota" "Corolla" "KEY" st0)
    as [_ H].
  apply (H (json_response 200 (results [PDict [("thumbnail", PStr "http://x/img.jpg")]]))
           [("images_results", PList [PDict [("thumbnail", PStr "http://x/img.jpg")]])]
           [("thumbnail", PStr "http://x/img.jpg")] []); reflexivity.
Defined.

(** ** The download *)

(** C3: a download answered with a status other than 200 prints one line
    with the URL and the status, and leaves the file system as it was. *)
Theorem download_image_not_200 (E : Env) (url : pyval) (path : string)
    (st : State) (response : Response) :
  requests_get E (trace st) url true = Returns response ->
  status_code response <> 200 ->
  download_image E url path st =
    (tt, {| fs := fs st;
            stdout := stdout st ++
              ["Failed to download " +:+ format_value E url +:+ ": "
               +:+ pretty (status_code response)];
            trace := trace st ++ [EGet url true] |}).
Proof.
  intros Hget Hne. run_step. rewrite Hget.
  apply Z.eqb_neq in Hne. rewrite Hne. reflexivity.
Qed.

(** A 404 leaves the file that was there as it was. *)
Lemma download_image_not_200_witness :
  download_image env_gone (PStr "http://x/img.jpg") "out/toyota_corolla.jpg"
    {| fs := {[ "out/toyota_corolla.jpg" := jpegdata ]}; stdout := []; trace := [] |} =
    (tt, {| fs := {[ "out/toyota_corolla.jpg" := jpegdata ]};
            stdout := ["Failed to download http://x/img.jpg: 404"];
            trace := [EGet (PStr "http://x/img.jpg") true] |}).
Proof.
  rewrite (download_image_not_200 env_gone (PStr "http://x/img.jpg")
             "out/toyota_corolla.jpg" _ (image_response 404 []) eq_refl);
    [vm_compute; reflexivity | simpl; lia].
Defined.
(** C6, as the specification words it, fails: the pieces written are those
    the iterator yields, whatever their size.  When the image arrives as
    JPEG then DATA, these two pieces are written, four bytes each and not
    1024; the file is complete all the same. *)
Lemma download_image_pieces_not_1024 :
  download_image env_chunked (PStr "http://x/img.jpg") "out/toyota_corolla.jpg" st0 =
    (tt, {| fs := {[ "out/toyota_corolla.jpg" := jpegdata ]};
            stdout := ["Downloaded: out/toyota_corolla.jpg"];
            trace := [EGet (PStr "http://x/img.jpg") true;
                      EOpen "out/toyota_corolla.jpg";
                      EWrite "out/toyota_corolla.jpg" (list_byte_of_string "JPEG");
                      EWrite "out/toyota_corolla.jpg" (list_byte_of_string "DATA");
                      EClose "out/toyota_corolla.jpg"] |})
  /\ fixed_size 1024
       (writes_to "out/toyota_corolla.jpg"
          (trace (download_image env_chunked (PStr "http://x/img.jpg")
                    "out/toyota_corolla.jpg" st0).2)) = false.
Proof. split; vm_compute; reflexivity. Qed.

(** C6, as the code has it: a download answered with 200 opens the path
    for writing, asks the iterator for pieces of 1024 bytes and writes
    each piece it yields as it comes, one [write] per piece, closes the
    file and prints "Downloaded: <path>"; the file then holds the pieces
    end to end, which is the body.  The premises are those of the success
    branch: the stream is not cut, and [open], [write] and the closing
    raise nothing. *)
Theorem download_image_200 (E : Env) (url : pyval) (path : string)
    (st : State) (response : Response) :
  requests_get E (trace st) url true = Returns response ->
  status_code response = 200 ->
  broken response = None ->
  (forall h, os_open E h path = None) ->
  (forall h c, os_write E h path c = None) ->
  (forall h, os_close E h path = None) ->
  let pieces := iter_content response 1024 in
  download_image E url path st =
    (tt, {| fs := <[path := concat pieces]> (fs st);
            stdout := stdout st ++ ["Downloaded: " +:+ path];
            trace := trace st ++ EGet url true :: EOpen path ::
                       map (EWrite path) pieces ++ [EClose path] |}).
Proof.
  intros Hget H200 Hbroken Hopen Hwrite Hclose pieces.
  run_step. unfold for_chunk_write, open_wb, file_close. run_step.
  rewrite Hget. simpl. rewrite H200. simpl. rewrite Hopen. simpl.
  erewrite write_chunks_ok; [|exact Hwrite|simpl; apply lookup_insert_eq].
  simpl. rewrite Hbroken. simpl. rewrite Hclose. simpl.
  rewrite insert_insert_eq, <- !app_assoc. reflexivity.
Qed.

(** Eight bytes, one piece, one file. *)
Lemma download_image_200_witness :
  download_image env_found (PStr "http://x/img.jpg") "out/toyota_corolla.jpg" st0 =
    (tt, {| fs := {[ "out/toyota_corolla.jpg" := jpegdata ]};
            stdout := ["Downloaded: out/toyota_corolla.jpg"];
            trace := [EGet (PStr "http://x/img.jpg") true;
                      EOpen "out/toyota_corolla.jpg";
                      EWrite "out/toyota_corolla.jpg" jpegdata;
                      EClose "out/toyota_corolla.jpg"] |}).
Proof.
  rewrite (download_image_200 env_found (PStr "http://x/img.jpg")
             "out/toyota_corolla.jpg" st0 (image_response 200 jpegdata)
             eq_refl eq_refl eq_refl (fun _ => eq_refl) (fun _ _ => eq_refl)
             (fun _ => eq_refl)).
  vm_compute. reflexivity.
Defined.

(** ** One entry of the catalog *)

Lemma download_image_moves (E : Env) (url : pyval) (path : string) (st : State) :
  (download_image E url path st).2 <> st.
Proof.
  destruct (download_image_cases E url path st) as (line & evs & _ & Htr & _).
  simpl in Htr. intros Heq. rewrite Heq in Htr.
  apply (f_equal length) in Htr. rewrite length_app in Htr. simpl in Htr. lia.
Qed.

(** C7: when the search answers 200 with an empty [images_results], the
    fetch prints "No image found", returns [None], and the entry ends
    there: the search is its only request, and the state is not one a call
    of [download_image] leaves. *)
Theorem empty_results_no_download (E : Env) (b : string) (m : Model) (st : State)
    (response : Response) (d : list (string * pyval)) :
  requests_get E (trace st) (query_of (b, m)) false = Returns response ->
  status_code response = 200 ->
  json response = Returns (PDict d) ->
  dict_lookup "images_results" d = Some (PList []) ->
  let st' :=
    {| fs := fs st;
       stdout := stdout st ++ ["No image found for " +:+ b +:+ " " +:+ name m];
       trace := trace st ++ [EGet (query_of (b, m)) false] |} in
  fetch_image_url E b (name m) SERPAPI_KEY st = (PNone, st')
  /\ process_model E b m st = (tt, st')
  /\ forall url path, (download_image E url path st').2 <> st'.
Proof.
  intros Hget H200 Hjson Hres st'.
  assert (Hfetch : fetch_image_url E b (name m) SERPAPI_KEY st = (PNone, st')).
  { run_step. unfold query_of in Hget. simpl in Hget. rewrite Hget. simpl.
    unfold first_thumbnail. rewrite H200, Hjson. simpl. rewrite Hres. reflexivity. }
  split; [exact Hfetch|split].
  - unfold process_model, bind. rewrite Hfetch. reflexivity.
  - intros url path. apply download_image_moves.
Qed.

(** An empty result list for Toyota Corolla. *)
Lemma empty_results_no_download_witness :
  process_model env_no_results "Toyota" corolla st0 =
    (tt, {| fs := ∅;
            stdout := ["No image found for Toyota Corolla"];
            trace := [EGet (query_of ("Toyota", corolla)) false] |}).
Proof.
  destruct (empty_results_no_download env_no_results "Toyota" corolla st0
              (json_response 200 (results [])) [("images_results", PList [])]
              eq_refl eq_refl eq_refl eq_refl) as (_ & H & _).
  exact H.
Defined.

(** C10: the loop tests the truth value of what the fetch returned.  When
    the first result's thumbnail is falsy (the empty string in particular)
    the fetch returns it, and the entry ends there, as for [None]: no
    download is started. *)
Theorem falsy_thumbnail_no_download (E : Env) (b : string) (m : Model) (st : State)
    (response : Response) (d entry : list (string * pyval)) (rest : list pyval)
    (thumbnail : pyval) :
  requests_get E (trace st) (query_of (b, m)) false = Returns response ->
  status_code response = 200 ->
  json response = Returns (PDict d) ->
  dict_lookup "images_results" d = Some (PList (PDict entry :: rest)) ->
  dict_lookup "thumbnail" entry = Some thumbnail ->
  truthy thumbnail = false ->
  let st' := log (EGet (query_of (b, m)) false) st in
  fetch_image_url E b (name m) SERPAPI_KEY st = (thumbnail, st')
  /\ process_model E b m st = (tt, st')
  /\ forall url path, (download_image E url path st').2 <> st'.
Proof.
  intros Hget H200 Hjson Hres Hthumb Hfalsy st'.
  assert (Hfetch : fetch_image_url E b (name m) SERPAPI_KEY st = (thumbnail, st')).
  { run_step. unfold query_of in Hget. simpl in Hget. rewrite Hget. simpl.
    unfold first_thumbnail. rewrite H200, Hjson. simpl. rewrite Hres. simpl.
    rewrite Hthumb. reflexivity. }
  split; [exact Hfetch|split].
  - unfold process_model, bind. rewrite Hfetch, Hfalsy. reflexivity.
  - intros url path. apply download_image_moves.
Qed.

(** A first result whose thumbnail is the empty string. *)
Lemma falsy_thumbnail_no_download_witness :
  fetch_image_url env_empty_thumbnail "Toyota" "Corolla" SERPAPI_KEY st0 =
    (PStr "", {| fs := ∅; stdout := [];
                 trace := [EGet (query_of ("Toyota", corolla)) false] |})
  /\ process_model env_empty_thumbnail "Toyota" corolla st0 =
    (tt, {| fs := ∅; stdout := [];
            trace := [EGet (query_of ("Toyota", corolla)) false] |}).
Proof.
  destruct (falsy_thumbnail_no_download env_empty_thumbnail "Toyota" corolla st0
              (json_response 200 (results [PDict [("thumbnail", PStr "")]]))
              [("images_results", PList [PDict [("thumbnail", PStr "")]])]
              [("thumbnail", PStr "")] [] (PStr "")
              eq_refl eq_refl eq_refl eq_refl eq_refl eq_refl) as (H1 & H2 & _).
  split; [exact H1 | exact H2].
Defined.

(** C1, as the specification words it, fails by design when a download
    fails: the line printed names the URL and the status, not the brand
    and the model, and nothing is written. *)
Lemma download_failure_names_no_model :
  (process_model env_gone "Toyota" corolla st0).2 =
    {| fs := ∅;
       stdout := ["Failed to download http://x/img.jpg: 404"];
       trace := [EGet (query_of ("Toyota", corolla)) false;
                 EGet (PStr "http://x/img.jpg") true] |}
  /\ outcome_reported env_gone "Toyota" corolla st0 = false.
Proof. split; vm_compute; reflexivity. Qed.

(** A first result without thumbnail: the entry leaves no line at all. *)
Example missing_thumbnail_is_silent :
  process_model env_no_thumbnail "Toyota" corolla st0 =
    (tt, {| fs := ∅; stdout := [];
            trace := [EGet (query_of ("Toyota", corolla)) false] |}).
Proof. reflexivity. Qed.

(** C1, as the code has it.  Leave aside the searches that end at line 329
    with a falsy value.  Then every entry prints exactly one line: the
    path downloaded, with the file at that path written; or a line of the
    fetch, which names brand and model; or a line of the download that
    failed, which names the URL. *)
Theorem process_model_outcome (E : Env) (b : string) (m : Model) (st : State) :
  (forall response v,
     requests_get E (trace st) (query_of (b, m)) false = Returns response ->
     first_thumbnail response = Returns (Some v) ->
     truthy v = true) ->
  let url := (fetch_image_url E b (name m) SERPAPI_KEY st).1 in
  let st' := (process_model E b m st).2 in
  exists line,
    stdout st' = stdout st ++ [line]
    /\ ((line = "Downloaded: " +:+ image m /\ is_Some (fs st' !! image m))
        \/ line = "No image found for " +:+ b +:+ " " +:+ name m
        \/ (exists e,
            line = "Error fetching image URL for " +:+ b +:+ " " +:+ name m
                   +:+ ": " +:+ e)
        \/ (exists code, code <> 200 /\
            line = "Failed to download " +:+ format_value E url +:+ ": "
                   +:+ pretty code)
        \/ (exists e,
            line = "Error downloading " +:+ format_value E url +:+ ": " +:+ e)).
Proof.
  intros Htruthy url st'. subst url st'. unfold process_model, bind.
  pose proof (fetch_image_url_cases E b (name m) SERPAPI_KEY st) as (lines & Hst & Hcases).
  destruct (fetch_image_url E b (name m) SERPAPI_KEY st) as [v st1].
  simpl in Hst, Hcases |- *.
  destruct Hcases as [(-> & response & Hget & Hthumb)|[(-> & ->)|(-> & e & ->)]].
  - rewrite (Htruthy response v Hget Hthumb).
    destruct (download_image_cases E v (image m) st1)
      as (line & evs & Hout & _ & _ & Hline).
    simpl in Hout, Hline. exists line. rewrite Hout.
    split; [by rewrite Hst; simpl; rewrite app_nil_r|].
    destruct Hline as [Hd|[(code & Hne & _ & _ & ->)|(e & ->)]].
    + by left.
    + right; right; right; left. by exists code.
    + right; right; right; right. by exists e.
  - simpl. eexists. rewrite Hst. simpl. split; [done|]. right; left. done.
  - simpl. eexists. rewrite Hst. simpl. split; [done|]. right; right; left. by exists e.
Qed.

(** The search finds a thumbnail, which is truthy. *)
Lemma process_model_outcome_witness :
  exists line,
    stdout (process_model env_found "Toyota" corolla st0).2 = [] ++ [line]
    /\ ((line = "Downloaded: out/toyota_corolla.jpg"
         /\ is_Some (fs (process_model env_found "Toyota" corolla st0).2
                       !! "out/toyota_corolla.jpg"))
        \/ line = "No image found for Toyota Corolla"
        \/ (exists e, line = "Error fetching image URL for Toyota Corolla: " +:+ e)
        \/ (exists code, code <> 200 /\
            line = "Failed to download http://x/img.jpg: " +:+ pretty code)
        \/ (exists e, line = "Error downloading http://x/img.jpg: " +:+ e)).
Proof.
  apply (process_model_outcome env_found "Toyota" corolla st0).
  intros response v Hget Hthumb. vm_compute in Hget.
  injection Hget as <-. vm_compute in Hthumb. injection Hthumb as <-.
  reflexivity.
Defined.

(** ** The whole batch *)


(** C9: two catalogs that differ in their release years only give the same
    run in every environment: same value, same files, same lines, same
    requests and writes in the same order. *)
Theorem releaseYear_noninterference (E : Env) (db1 db2 : list Brand) (st : State) :
  Forall2 same_but_years db1 db2 ->
  main_loop E db1 st = main_loop E db2 st.
Proof.
  unfold main_loop. intros Hdb. revert st.
  induction Hdb as [|b1 b2 db1 db2 [Hb Hms] _ IH]; intros st; [done|].
  simpl. unfold bind.
  assert (Hin : forall s, for_each (process_model E (brand b1)) (models b1) s
                        = for_each (process_model E (brand b2)) (models b2) s).
  { rewrite <- Hb. clear -Hms.
    induction Hms as [|m1 m2 ms1 ms2 [Hn Hi] _ IHm]; intros s; [done|].
    simpl. unfold bind, process_model at 1 3. rewrite Hn, Hi.
    destruct (bind _ _ s) as [[] s1]. apply IHm. }
  rewrite Hin. destruct (for_each _ (models b2) st) as [[] st1]. apply IH.
Qed.

(** The Corolla of 1966 and the Corolla of 2024. *)
Lemma releaseYear_noninterference_witness :
  main_loop env_found toyota st0 = main_loop env_found toyota' st0.
Proof.
  apply releaseYear_noninterference.
  repeat constructor.
Defined.

(** ** The catalog and the asset directory *)

(** C8: no two models of the catalog share an image path; every image
    path names a file placed directly in src/assets/car_images; and the
    script asks for that directory before anything else, so that every
    path it later opens or writes is an image path of the catalog. *)
Theorem catalog_paths_under_image_dir (E : Env) (st : State) :
  NoDup (image_paths car_database)
  /\ Forall (fun p => directly_under "src/assets/car_images" p = true)
       (image_paths car_database)
  /\ exists evs,
       trace (script E st).2 = trace st ++ EMakedirs "src/assets/car_images" :: evs
       /\ forall p, p ∈ written_paths evs -> p ∈ image_paths car_database.
Proof.
  split; [|split].
  - apply (bool_decide_unpack _). vm_compute. exact I.
  - apply (bool_decide_unpack _). vm_compute. exact I.
  - unfold script, makedirs, bindx, bind, retx, ret.
    change image_dir with "src/assets/car_images".
    destruct (os_makedirs E (trace st) "src/assets/car_images") as [e|].
    + exists []. split; [done|]. intros p Hp. by apply elem_of_nil in Hp.
    + destruct (main_loop_trace E car_database
                  (log (EMakedirs "src/assets/car_images") st))
        as (evs & Htr & _ & Hp).
      destruct (main_loop E car_database _) as [[] st1]. simpl in *.
      exists evs. rewrite Htr, <- app_assoc. done.
Qed.

(** * Further properties of the code *)

(** ** [download_image]: every way out *)

(** The request itself raises: the exception is printed with the URL, and
    neither the file system nor the path is touched. *)
Theorem download_image_get_raises (E : Env) (url : pyval) (path : string)
    (st : State) (e : string) :
  requests_get E (trace st) url true = Raises e ->
  download_image E url path st =
    (tt, {| fs := fs st;
            stdout := stdout st ++
              ["Error downloading " +:+ format_value E url +:+ ": " +:+ e];
            trace := trace st ++ [EGet url true] |}).
Proof. intros Hget. run_step. rewrite Hget. reflexivity. Qed.

(** Without network, a file that was there stays as it was. *)
Lemma download_image_get_raises_witness :
  download_image env_offline (PStr "http://x/img.jpg") "notes.txt" st_notes =
    (tt, {| fs := {[ "notes.txt" := jpegdata ]};
            stdout := ["Error downloading http://x/img.jpg: Connection refused"];
            trace := [EGet (PStr "http://x/img.jpg") true] |}).
Proof.
  rewrite (download_image_get_raises env_offline (PStr "http://x/img.jpg")
             "notes.txt" st_notes "Connection refused" eq_refl).
  vm_compute. reflexivity.
Defined.

(** The answer is 200 and [open] raises: the exception is printed and no
    file is created or changed. *)
Theorem download_image_open_raises (E : Env) (url : pyval) (path : string)
    (st : State) (response : Response) (e : string) :
  requests_get E (trace st) url true = Returns response ->
  status_code response = 200 ->
  os_open E (trace st ++ [EGet url true]) path = Some e ->
  download_image E url path st =
    (tt, {| fs := fs st;
            stdout := stdout st ++
              ["Error downloading " +:+ format_value E url +:+ ": " +:+ e];
            trace := trace st ++ [EGet url true; EOpen path] |}).
Proof.
  intros Hget H200 Hopen. run_step. rewrite Hget. simpl. rewrite H200. simpl.
  unfold open_wb. simpl. rewrite Hopen. simpl. rewrite <- app_assoc. reflexivity.
Qed.

Lemma download_image_open_raises_witness :
  download_image env_readonly (PStr "http://x/img.jpg") "out/toyota_corolla.jpg" st0 =
    (tt, {| fs := ∅;
            stdout := ["Error downloading http://x/img.jpg: Permission denied"];
            trace := [EGet (PStr "http://x/img.jpg") true;
                      EOpen "out/toyota_corolla.jpg"] |}).
Proof.
  rewrite (download_image_open_raises env_readonly (PStr "http://x/img.jpg")
             "out/toyota_corolla.jpg" st0 (image_response 200 jpegdata)
             "Permission denied" eq_refl eq_refl eq_refl).
  vm_compute. reflexivity.
Defined.

(** The answer is 200 and the iterator yields nothing (an empty body):
    the file is created empty, no write is made, and the download is
    reported as done. *)
Theorem download_image_empty_body (E : Env) (url : pyval) (path : string)
    (st : State) (response : Response) :
  requests_get E (trace st) url true = Returns response ->
  status_code response = 200 ->
  iter_content response 1024 = [] ->
  broken response = None ->
  os_open E (trace st ++ [EGet url true]) path = None ->
  os_close E (trace st ++ [EGet url true; EOpen path]) path = None ->
  download_image E url path st =
    (tt, {| fs := <[path := []]> (fs st);
            stdout := stdout st ++ ["Downloaded: " +:+ path];
            trace := trace st ++ [EGet url true; EOpen path; EClose path] |}).
Proof.
  intros Hget H200 Hbody Hbroken Hopen Hclose.
  replace (trace st ++ [EGet url true; EOpen path])
    with ((trace st ++ [EGet url true]) ++ [EOpen path]) in Hclose
    by (by rewrite <- app_assoc).
  run_step. unfold for_chunk_write, open_wb, file_close. run_step.
  rewrite Hget. simpl. rewrite H200. simpl. rewrite Hopen. simpl.
  rewrite Hbody, Hbroken. simpl. rewrite Hclose. simpl.
  rewrite <- !app_assoc. reflexivity.
Qed.

Lemma download_image_empty_body_witness :
  download_image env_empty_image (PStr "http://x/img.jpg") "notes.txt" st_notes =
    (tt, {| fs := {[ "notes.txt" := [] ]};
            stdout := ["Downloaded: notes.txt"];
            trace := [EGet (PStr "http://x/img.jpg") true; EOpen "notes.txt";
                      EClose "notes.txt"] |}).
Proof.
  rewrite (download_image_empty_body env_empty_image (PStr "http://x/img.jpg")
             "notes.txt" st_notes (image_response 200 [])
             eq_refl eq_refl eq_refl eq_refl eq_refl eq_refl).
  vm_compute. reflexivity.
Defined.



(** The answer is 200 and the stream is cut after some pieces: they are
    all written, the file is closed, the exception is printed, and the
    truncated file stays; "Downloaded" is not printed. *)
Theorem download_image_stream_cut (E : Env) (url : pyval) (path : string)
    (st : State) (response : Response) (e : string) :
  requests_get E (trace st) url true = Returns response ->
  status_code response = 200 ->
  broken response = Some e ->
  (forall h, os_open E h path = None) ->
  (forall h c, os_write E h path c = None) ->
  (forall h, os_close E h path = None) ->
  download_image E url path st =
    (tt, {| fs := <[path := concat (iter_content response 1024)]> (fs st);
            stdout := stdout st ++
              ["Error downloading " +:+ format_value E url +:+ ": " +:+ e];
            trace := trace st ++ EGet url true :: EOpen path ::
                       map (EWrite path) (iter_content response 1024)
                       ++ [EClose path] |}).
Proof.
  intros Hget H200 Hbroken Hopen Hwrite Hclose.
  run_step. unfold for_chunk_write, open_wb, file_close. run_step.
  rewrite Hget. simpl. rewrite H200. simpl. rewrite Hopen. simpl.
  erewrite write_chunks_ok; [|exact Hwrite|simpl; apply lookup_insert_eq].
  simpl. rewrite Hbroken. simpl. rewrite Hclose. simpl.
  rewrite insert_insert_eq, <- !app_assoc. reflexivity.
Qed.

Lemma download_image_stream_cut_witness :
  download_image env_cut (PStr "http://x/img.jpg") "out/toyota_corolla.jpg" st0 =
    (tt, {| fs := {[ "out/toyota_corolla.jpg" := jpegdata ]};
            stdout := ["Error downloading http://x/img.jpg: Connection broken"];
            trace := [EGet (PStr "http://x/img.jpg") true;
                      EOpen "out/toyota_corolla.jpg";
                      EWrite "out/toyota_corolla.jpg" jpegdata;
                      EClose "out/toyota_corolla.jpg"] |}).
Proof.
  rewrite (download_image_stream_cut env_cut (PStr "http://x/img.jpg")
             "out/toyota_corolla.jpg" st0
             {| status_code := 200;
                json := Raises "Expecting value: line 1 column 1 (char 0)";
                iter_content := fun _ => [jpegdata];
                broken := Some "Connection broken" |}
             "Connection broken" eq_refl eq_refl eq_refl
             (fun _ => eq_refl) (fun _ _ => eq_refl) (fun _ => eq_refl)).
  vm_compute. reflexivity.
Defined.

(** The answer is 200, every piece is written, and the closing of the
    file raises (a write that was buffered fails then): the exception is
    printed and "Downloaded" is not. *)
Theorem download_image_close_raises (E : Env) (url : pyval) (path : string)
    (st : State) (response : Response) (e : string) :
  requests_get E (trace st) url true = Returns response ->
  status_code response = 200 ->
  (forall h, os_open E h path = None) ->
  (forall h c, os_write E h path c = None) ->
  (forall h, os_close E h path = Some e) ->
  download_image E url path st =
    (tt, {| fs := <[path := concat (iter_content response 1024)]> (fs st);
            stdout := stdout st ++
              ["Error downloading " +:+ format_value E url +:+ ": " +:+ e];
            trace := trace st ++ EGet url true :: EOpen path ::
                       map (EWrite path) (iter_content response 1024)
                       ++ [EClose path] |}).
Proof.
  intros Hget H200 Hopen Hwrite Hclose.
  run_step. unfold for_chunk_write, open_wb, file_close. run_step.
  rewrite Hget. simpl. rewrite H200. simpl. rewrite Hopen. simpl.
  erewrite write_chunks_ok; [|exact Hwrite|simpl; apply lookup_insert_eq].
  simpl. destruct (broken response); simpl; rewrite Hclose; simpl;
    rewrite insert_insert_eq, <- !app_assoc; reflexivity.
Qed.

Lemma download_image_close_raises_witness :
  download_image env_close_fails (PStr "http://x/img.jpg") "out/toyota_corolla.jpg" st0 =
    (tt, {| fs := {[ "out/toyota_corolla.jpg" := jpegdata ]};
            stdout := ["Error downloading http://x/img.jpg: No space left on device"];
            trace := [EGet (PStr "http://x/img.jpg") true;
                      EOpen "out/toyota_corolla.jpg";
                      EWrite "out/toyota_corolla.jpg" jpegdata;
                      EClose "out/toyota_corolla.jpg"] |}).
Proof.
  rewrite (download_image_close_raises env_close_fails (PStr "http://x/img.jpg")
             "out/toyota_corolla.jpg" st0 (image_response 200 jpegdata)
             "No space left on device" eq_refl eq_refl
             (fun _ => eq_refl) (fun _ _ => eq_refl) (fun _ => eq_refl)).
  vm_compute. reflexivity.
Defined.

(** ** What a call may touch *)

Lemma write_chunks_fs (E : Env) (path : string) (cs : list (list byte)) :
  forall (st : State),
  let st' := (write_chunks E path cs st).2 in
  (forall p, p <> path -> fs st' !! p = fs st !! p)
  /\ (forall p, is_Some (fs st !! p) -> is_Some (fs st' !! p))
  /\ exists evs, trace st' = trace st ++ evs /\ Forall (file_event path) evs.
Proof.
  induction cs as [|c cs IH]; intros st; simpl.
  - split; [done|split; [done|]]. exists []. by rewrite app_nil_r.
  - unfold bindx, bind, file_write.
    destruct (os_write E (trace st) path c) as [e|]; simpl.
    + split; [done|split; [done|]]. exists [EWrite path c]. split; [done|].
      by repeat constructor.
    + match goal with |- context [write_chunks E path cs ?s] =>
        destruct (IH s) as (Hother & Hkeep & evs & Htr & Hevs) end.
      simpl in *. split; [|split].
      * intros p Hp. rewrite Hother by done. by rewrite lookup_insert_ne.
      * intros p Hsome. apply Hkeep.
        destruct (decide (path = p)) as [->|Hne].
        -- rewrite lookup_insert_eq. by eexists.
        -- by rewrite lookup_insert_ne.
      * exists (EWrite path c :: evs). rewrite Htr, <- app_assoc. split; [done|].
        by constructor.
Qed.

Lemma download_image_fs (E : Env) (url : pyval) (path : string) (st : State) :
  let st' := (download_image E url path st).2 in
  (forall p, p <> path -> fs st' !! p = fs st !! p)
  /\ (forall p, is_Some (fs st !! p) -> is_Some (fs st' !! p))
  /\ exists evs, trace st' = trace st ++ EGet url true :: evs
                 /\ Forall (file_event path) evs.
Proof.
  run_step.
  destruct (requests_get E (trace st) url true) as [response|e]; simpl.
  2: { split; [done|split; [done|]]. by exists []. }
  destruct (status_code response =? 200); simpl.
  2: { split; [done|split; [done|]]. by exists []. }
  unfold open_wb. simpl.
  match goal with |- context [os_open E ?h path] =>
    destruct (os_open E h path) as [e|] end; simpl.
  { split; [done|split; [done|]]. exists [EOpen path]. rewrite <- app_assoc.
    split; [done|]. by repeat constructor. }
  unfold for_chunk_write, file_close. run_step.
  match goal with |- context [write_chunks E path ?c ?s] =>
    pose proof (write_chunks_fs E path c s) as (Hother & Hkeep & evs & Htr & Hevs);
    destruct (write_chunks E path c s) as [r st1] end; simpl in *.
  assert (Hall :
    (forall p, p <> path -> fs st1 !! p = fs st !! p)
    /\ (forall p, is_Some (fs st !! p) -> is_Some (fs st1 !! p))
    /\ exists evs0, trace st1 ++ [EClose path] = trace st ++ EGet url true :: evs0
                    /\ Forall (file_event path) evs0).
  { split; [|split].
    - intros p Hp. rewrite Hother by done. by rewrite lookup_insert_ne.
    - intros p Hsome. apply Hkeep. destruct (decide (path = p)) as [->|Hne].
      + rewrite lookup_insert_eq. by eexists.
      + by rewrite lookup_insert_ne.
    - exists (EOpen path :: evs ++ [EClose path]). rewrite Htr, <- !app_assoc.
      split; [done|]. constructor; [done|]. apply Forall_app. split; [done|].
      by repeat constructor. }
  destruct r as [[]|e]; [destruct (broken response) as [e|]|]; simpl;
    destruct (os_close E (trace st1) path) as [e'|]; simpl; exact Hall.
Qed.

(** In every environment a call of [download_image] prints exactly one
    line and sends exactly one request, its first event; after it the
    call only opens, writes and closes its own path; every other file is
    left as it was, and no file is removed. *)
Theorem download_image_footprint (E : Env) (url : pyval) (path : string) (st : State) :
  let st' := (download_image E url path st).2 in
  exists line evs,
    stdout st' = stdout st ++ [line]
    /\ trace st' = trace st ++ EGet url true :: evs
    /\ Forall (file_event path) evs
    /\ (forall p, p = path \/ fs st' !! p = fs st !! p)
    /\ (forall p, fs st !! p = None \/ is_Some (fs st' !! p)).
Proof.
  intros st'. subst st'.
  destruct (download_image_cases E url path st) as (line & evs0 & Hout & _).
  destruct (download_image_fs E url path st) as (Hother & Hkeep & evs & Htr & Hevs).
  exists line, evs. repeat split; try done.
  - intros p. destruct (decide (p = path)); [by left | right; by apply Hother].
  - intros p. destruct (fs st !! p) eqn:Hp; [right|by left].
    apply Hkeep. rewrite Hp. by eexists.
Qed.

(** In every environment a call of [fetch_image_url] sends exactly one
    request, the search, touches no file, and prints at most one line;
    when it prints, it returns [None]. *)
Theorem fetch_image_url_footprint (E : Env) (b m key : string) (st : State) :
  let r := fetch_image_url E b m key st in
  fs r.2 = fs st
  /\ trace r.2 = trace st ++ [EGet (PStr (search_url b m key)) false]
  /\ exists lines,
       stdout r.2 = stdout st ++ lines
       /\ (lines = [] \/ (r.1 = PNone /\ exists line, lines = [line])).
Proof.
  intros r. subst r.
  destruct (fetch_image_url_cases E b m key st) as (lines & Hst & Hcases).
  rewrite Hst. simpl. split; [done|split; [done|]]. exists lines. split; [done|].
  destruct Hcases as [(-> & _)|[(Hv & ->)|(Hv & e & ->)]].
  - by left.
  - right. split; [done|]. by eexists.
  - right. split; [done|]. by eexists.
Qed.

(** ** [fetch_image_url]: every way out *)

Ltac fetch_step Hget :=
  run_step; rewrite Hget; simpl; unfold first_thumbnail.

(** The request raises: the exception is printed with brand and model,
    and the call returns [None]. *)
Theorem fetch_image_url_get_raises (E : Env) (b m key : string) (st : State)
    (e : string) :
  requests_get E (trace st) (PStr (search_url b m key)) false = Raises e ->
  fetch_image_url E b m key st =
    (PNone,
     {| fs := fs st;
        stdout := stdout st ++
          ["Error fetching image URL for " +:+ b +:+ " " +:+ m +:+ ": " +:+ e];
        trace := trace st ++ [EGet (PStr (search_url b m key)) false] |}).
Proof. intros Hget. run_step. rewrite Hget. reflexivity. Qed.

Lemma fetch_image_url_get_raises_witness :
  fetch_image_url env_offline "Toyota" "Corolla" "KEY" st0 =
    (PNone,
     {| fs := ∅;
        stdout := ["Error fetching image URL for Toyota Corolla: Connection refused"];
        trace := [EGet (PStr (search_url "Toyota" "Corolla" "KEY")) false] |}).
Proof.
  rewrite (fetch_image_url_get_raises env_offline "Toyota" "Corolla" "KEY" st0
             "Connection refused" eq_refl).
  reflexivity.
Defined.

(** The answer is 200 and its body does not parse: the exception of
    [json()] is printed like that of the request. *)
Theorem fetch_image_url_json_raises (E : Env) (b m key : string) (st : State)
    (response : Response) (e : string) :
  requests_get E (trace st) (PStr (search_url b m key)) false = Returns response ->
  status_code response = 200 ->
  json response = Raises e ->
  fetch_image_url E b m key st =
    (PNone,
     {| fs := fs st;
        stdout := stdout st ++
          ["Error fetching image URL for " +:+ b +:+ " " +:+ m +:+ ": " +:+ e];
        trace := trace st ++ [EGet (PStr (search_url b m key)) false] |}).
Proof.
  intros Hget H200 Hjson. fetch_step Hget. rewrite H200, Hjson. reflexivity.
Qed.

Lemma fetch_image_url_json_raises_witness :
  fetch_image_url env_html "Toyota" "Corolla" "KEY" st0 =
    (PNone,
     {| fs := ∅;
        stdout := ["Error fetching image URL for Toyota Corolla: Expecting value: line 1 column 1 (char 0)"];
        trace := [EGet (PStr (search_url "Toyota" "Corolla" "KEY")) false] |}).
Proof.
  rewrite (fetch_image_url_json_raises env_html "Toyota" "Corolla" "KEY" st0
             (image_response 200 [])
             "Expecting value: line 1 column 1 (char 0)" eq_refl eq_refl eq_refl).
  reflexivity.
Defined.

(** The answer is 200 and its body is JSON but not an object: [data.get]
    raises, and what is printed is the [AttributeError] for the type
    of the body. *)
Theorem fetch_image_url_body_not_object (E : Env) (b m key : string) (st : State)
    (response : Response) (data : pyval) :
  requests_get E (trace st) (PStr (search_url b m key)) false = Returns response ->
  status_code response = 200 ->
  json response = Returns data ->
  (forall d, data <> PDict d) ->
  fetch_image_url E b m key st =
    (PNone,
     {| fs := fs st;
        stdout := stdout st ++
          ["Error fetching image URL for " +:+ b +:+ " " +:+ m +:+ ": "
           +:+ "'" +:+ type_name data +:+ "' object has no attribute 'get'"];
        trace := trace st ++ [EGet (PStr (search_url b m key)) false] |}).
Proof.
  intros Hget H200 Hjson Hdata. fetch_step Hget. rewrite H200, Hjson. simpl.
  destruct data; try reflexivity. by destruct (Hdata d).
Qed.

Lemma fetch_image_url_body_not_object_witness :
  fetch_image_url env_body_list "Toyota" "Corolla" "KEY" st0 =
    (PNone,
     {| fs := ∅;
        stdout := ["Error fetching image URL for Toyota Corolla: 'list' object has no attribute 'get'"];
        trace := [EGet (PStr (search_url "Toyota" "Corolla" "KEY")) false] |}).
Proof.
  rewrite (fetch_image_url_body_not_object env_body_list "Toyota" "Corolla" "KEY" st0
             (json_response 200 (PList [PInt 1])) (PList [PInt 1])
             eq_refl eq_refl eq_refl); [reflexivity | discriminate].
Defined.

(** The answer is 200 and its object has no [images_results], or a falsy
    one ([null], an empty list): the default takes over and the outcome is
    "No image found", as for an empty list of results. *)
Theorem fetch_image_url_no_results (E : Env) (b m key : string) (st : State)
    (response : Response) (d : list (string * pyval)) :
  requests_get E (trace st) (PStr (search_url b m key)) false = Returns response ->
  status_code response = 200 ->
  json response = Returns (PDict d) ->
  truthy (default (PList []) (dict_lookup "images_results" d)) = false ->
  fetch_image_url E b m key st =
    (PNone,
     {| fs := fs st;
        stdout := stdout st ++ ["No image found for " +:+ b +:+ " " +:+ m];
        trace := trace st ++ [EGet (PStr (search_url b m key)) false] |}).
Proof.
  intros Hget H200 Hjson Hfalsy. fetch_step Hget. rewrite H200, Hjson. simpl.
  rewrite Hfalsy. reflexivity.
Qed.

Lemma fetch_image_url_no_results_witness :
  fetch_image_url env_no_key "Toyota" "Corolla" "KEY" st0 =
    (PNone,
     {| fs := ∅;
        stdout := ["No image found for Toyota Corolla"];
        trace := [EGet (PStr (search_url "Toyota" "Corolla" "KEY")) false] |}).
Proof.
  rewrite (fetch_image_url_no_results env_no_key "Toyota" "Corolla" "KEY" st0
             (json_response 200 (PDict [("error", PStr "quota")]))
             [("error", PStr "quota")] eq_refl eq_refl eq_refl eq_refl).
  reflexivity.
Defined.

(** The answer is 200 and [images_results] is truthy but not a list (a
    string, a number, an object): indexing it or calling [get] on what
    the index gives raises, an error line is printed, and the call
    returns [None]. *)
Theorem fetch_image_url_results_not_list (E : Env) (b m key : string) (st : State)
    (response : Response) (d : list (string * pyval)) (results : pyval) :
  requests_get E (trace st) (PStr (search_url b m key)) false = Returns response ->
  status_code response = 200 ->
  json response = Returns (PDict d) ->
  dict_lookup "images_results" d = Some results ->
  truthy results = true ->
  (forall l, results <> PList l) ->
  exists e,
    fetch_image_url E b m key st =
      (PNone,
       {| fs := fs st;
          stdout := stdout st ++
            ["Error fetching image URL for " +:+ b +:+ " " +:+ m +:+ ": " +:+ e];
          trace := trace st ++ [EGet (PStr (search_url b m key)) false] |}).
Proof.
  intros Hget H200 Hjson Hres Htruthy Hlist. fetch_step Hget.
  rewrite H200, Hjson. simpl. rewrite Hres. simpl. rewrite Htruthy.
  destruct results as [|x|z|f|s|l|d']; try discriminate;
    try (eexists; reflexivity).
  - destruct s; [discriminate|]. eexists. reflexivity.
  - by destruct (Hlist l).
Qed.

Lemma fetch_image_url_results_not_list_witness :
  exists e,
    fetch_image_url env_results_string "Toyota" "Corolla" "KEY" st0 =
      (PNone,
       {| fs := ∅;
          stdout := ["Error fetching image URL for " +:+ "Toyota" +:+ " "
                     +:+ "Corolla" +:+ ": " +:+ e];
          trace := [EGet (PStr (search_url "Toyota" "Corolla" "KEY")) false] |}).
Proof.
  apply (fetch_image_url_results_not_list env_results_string "Toyota" "Corolla"
           "KEY" st0 (json_response 200 (PDict [("images_results", PStr "none")]))
           [("images_results", PStr "none")] (PStr "none"));
    try reflexivity; discriminate.
Defined.

(** The answer is 200 and the first result is not an object: [get] on it
    raises, and what is printed is the [AttributeError] for its type. *)
Theorem fetch_image_url_result_not_object (E : Env) (b m key : string) (st : State)
    (response : Response) (d : list (string * pyval)) (first : pyval)
    (rest : list pyval) :
  requests_get E (trace st) (PStr (search_url b m key)) false = Returns response ->
  status_code response = 200 ->
  json response = Returns (PDict d) ->
  dict_lookup "images_results" d = Some (PList (first :: rest)) ->
  (forall entry, first <> PDict entry) ->
  fetch_image_url E b m key st =
    (PNone,
     {| fs := fs st;
        stdout := stdout st ++
          ["Error fetching image URL for " +:+ b +:+ " " +:+ m +:+ ": "
           +:+ "'" +:+ type_name first +:+ "' object has no attribute 'get'"];
        trace := trace st ++ [EGet (PStr (search_url b m key)) false] |}).
Proof.
  intros Hget H200 Hjson Hres Hfirst. fetch_step Hget.
  rewrite H200, Hjson. simpl. rewrite Hres. simpl.
  destruct first; try reflexivity. by destruct (Hfirst d0).
Qed.

Lemma fetch_image_url_result_not_object_witness :
  fetch_image_url env_string_result "Toyota" "Corolla" "KEY" st0 =
    (PNone,
     {| fs := ∅;
        stdout := ["Error fetching image URL for Toyota Corolla: 'str' object has no attribute 'get'"];
        trace := [EGet (PStr (search_url "Toyota" "Corolla" "KEY")) false] |}).
Proof.
  rewrite (fetch_image_url_result_not_object env_string_result "Toyota" "Corolla"
             "KEY" st0 (json_response 200 (results [PStr "http://x/img.jpg"]))
             [("images_results", PList [PStr "http://x/img.jpg"])]
             (PStr "http://x/img.jpg") [] eq_refl eq_refl eq_refl eq_refl);
    [reflexivity | discriminate].
Defined.

(** The answer is 200 and the first result is an object without
    [thumbnail]: the call returns [None] from line 329 and prints
    nothing at all. *)
Theorem fetch_image_url_missing_thumbnail (E : Env) (b m key : string) (st : State)
    (response : Response) (d entry : list (string * pyval)) (rest : list pyval) :
  requests_get E (trace st) (PStr (search_url b m key)) false = Returns response ->
  status_code response = 200 ->
  json response = Returns (PDict d) ->
  dict_lookup "images_results" d = Some (PList (PDict entry :: rest)) ->
  dict_lookup "thumbnail" entry = None ->
  fetch_image_url E b m key st =
    (PNone,
     {| fs := fs st; stdout := stdout st;
        trace := trace st ++ [EGet (PStr (search_url b m key)) false] |}).
Proof.
  intros Hget H200 Hjson Hres Hthumb. fetch_step Hget.
  rewrite H200, Hjson. simpl. rewrite Hres. simpl. rewrite Hthumb. reflexivity.
Qed.

Lemma fetch_image_url_missing_thumbnail_witness :
  fetch_image_url env_no_thumbnail "Toyota" "Corolla" "KEY" st0 =
    (PNone,
     {| fs := ∅; stdout := [];
        trace := [EGet (PStr (search_url "Toyota" "Corolla" "KEY")) false] |}).
Proof.
  rewrite (fetch_image_url_missing_thumbnail env_no_thumbnail "Toyota" "Corolla"
             "KEY" st0 (json_response 200 (results [PDict [("title", PStr "Corolla")]]))
             [("images_results", PList [PDict [("title", PStr "Corolla")]])]
             [("title", PStr "Corolla")] [] eq_refl eq_refl eq_refl eq_refl eq_refl).
  reflexivity.
Defined.

(** The query does not keep brand and model apart: a space moved from
    one to the other gives the same URL, hence the same search. *)
Theorem search_url_joins (a b c key : string) :
  search_url (a +:+ " " +:+ b) c key = search_url a (b +:+ " " +:+ c) key.
Proof.
  unfold search_url. cbv zeta. f_equal. f_equal.
  rewrite !append_assoc. reflexivity.
Qed.

(** ** One entry, and the loop *)

Lemma file_events_downloads (path : string) (evs : list Event) :
  Forall (file_event path) evs -> downloads evs = [].
Proof.
  induction 1 as [|e evs He _ IH]; [done|].
  unfold downloads in *. by destruct e as [| ? []| | |].
Qed.

Lemma downloads_app (t1 t2 : list Event) :
  downloads (t1 ++ t2) = downloads t1 ++ downloads t2.
Proof. apply omap_app. Qed.

(** An entry sends its search first.  When the value fetched is falsy
    nothing follows; when it is truthy one download request follows, for
    that very value, and after it only the entry's own image path is
    opened, written and closed. *)
Theorem process_model_protocol (E : Env) (b : string) (m : Model) (st : State) :
  let v := (fetch_image_url E b (name m) SERPAPI_KEY st).1 in
  let st' := (process_model E b m st).2 in
  exists evs,
    trace st' = trace st ++ EGet (query_of (b, m)) false :: evs
    /\ ((truthy v = false /\ evs = [])
        \/ (truthy v = true /\ exists evs',
              evs = EGet v true :: evs' /\ Forall (file_event (image m)) evs')).
Proof.
  intros v st'. subst v st'. unfold process_model, bind.
  pose proof (fetch_image_url_cases E b (name m) SERPAPI_KEY st) as (lines & Hst & _).
  destruct (fetch_image_url E b (name m) SERPAPI_KEY st) as [v st1]. simpl in *.
  destruct (truthy v) eqn:Hv.
  - destruct (download_image_fs E v (image m) st1) as (_ & _ & evs & Htr & Hevs).
    exists (EGet v true :: evs). rewrite Htr, Hst. simpl. rewrite <- app_assoc.
    split; [done|]. right. split; [done|]. by exists evs.
  - exists []. rewrite Hst. simpl. split; [done|]. by left.
Qed.

Lemma process_entry_step (E : Env) (entry : string * Model) (st : State) :
  let st' := (process_entry E entry st).2 in
  exists lines evs,
    stdout st' = stdout st ++ lines /\ (length lines <= 1)%nat
    /\ trace st' = trace st ++ evs
    /\ (length (downloads evs) <= 1)%nat
    /\ (forall p, p <> image entry.2 -> fs st' !! p = fs st !! p)
    /\ (forall p, is_Some (fs st !! p) -> is_Some (fs st' !! p)).
Proof.
  destruct entry as [b m]. unfold process_entry, process_model, bind. simpl.
  pose proof (fetch_image_url_cases E b (name m) SERPAPI_KEY st)
    as (lines & Hst & Hcases).
  destruct (fetch_image_url E b (name m) SERPAPI_KEY st) as [v st1]. simpl in *.
  assert (Hlines : lines = [] \/ (v = PNone /\ exists line, lines = [line])).
  { destruct Hcases as [(-> & _)|[(Hv & ->)|(Hv & e & ->)]];
      [by left | right; split; [done|by eexists] ..]. }
  subst st1. destruct (truthy v) eqn:Hv.
  - destruct Hlines as [->|(-> & _)]; [|discriminate]. rewrite app_nil_r.
    match goal with |- context [download_image E v (image m) ?s] =>
      destruct (download_image_cases E v (image m) s) as (line & evs0 & Hout & _);
      destruct (download_image_fs E v (image m) s)
        as (Hother & Hkeep & evs & Htr & Hevs) end.
    simpl in *. exists [line], (EGet (PStr (search_url b (name m) SERPAPI_KEY)) false
                                 :: EGet v true :: evs).
    rewrite Hout, Htr, <- app_assoc.
    split; [done|split; [simpl; lia|split; [done|split; [|split]]]].
    + change (length (v :: downloads evs) <= 1)%nat.
      rewrite (file_events_downloads _ _ Hevs). simpl. lia.
    + intros p Hp. by rewrite Hother.
    + intros p Hsome. by apply Hkeep.
  - exists lines, [EGet (PStr (search_url b (name m) SERPAPI_KEY)) false].
    simpl. split; [done|split; [|split; [done|split; [|done]]]].
    + destruct Hlines as [->|(_ & line & ->)]; simpl; lia.
    + unfold downloads. simpl. lia.
Qed.

Lemma for_each_app {A} (body : A -> M unit) (l1 l2 : list A) (st : State) :
  for_each body (l1 ++ l2) st = for_each body l2 (for_each body l1 st).2.
Proof.
  revert st. induction l1 as [|x l1 IH]; intros st; simpl; [done|].
  unfold bind. destruct (body x st) as [[] st1]. apply IH.
Qed.

Lemma main_loop_entries (E : Env) (database : list Brand) (st : State) :
  main_loop E database st = for_each (process_entry E) (entries database) st.
Proof.
  unfold main_loop. revert st.
  induction database as [|b db IH]; intros st; [done|].
  cbn [for_each entries flat_map]. rewrite for_each_app. unfold bind.
  assert (Hin : forall s, for_each (process_model E (brand b)) (models b) s
                        = for_each (process_entry E) (map (pair (brand b)) (models b)) s).
  { generalize (models b). intros ms. induction ms as [|m ms IHm]; intros s; [done|].
    simpl. unfold bind, process_entry at 1. simpl.
    destruct (process_model E (brand b) m s) as [[] s1]. apply IHm. }
  rewrite <- Hin. destruct (for_each _ (models b) st) as [[] st1]. apply IH.
Qed.

Lemma for_each_entries_step (E : Env) (l : list (string * Model)) (st : State) :
  let st' := (for_each (process_entry E) l st).2 in
  exists lines evs,
    stdout st' = stdout st ++ lines /\ (length lines <= length l)%nat
    /\ trace st' = trace st ++ evs
    /\ (length (downloads evs) <= length l)%nat
    /\ (forall p, p ∉ map (fun entry => image entry.2) l -> fs st' !! p = fs st !! p)
    /\ (forall p, is_Some (fs st !! p) -> is_Some (fs st' !! p)).
Proof.
  revert st. induction l as [|entry l IH]; intros st; simpl.
  - exists [], []. rewrite !app_nil_r. repeat split; done.
  - unfold bind.
    destruct (process_entry_step E entry st)
      as (lines1 & evs1 & Hout1 & Hn1 & Htr1 & Hd1 & Hother1 & Hkeep1).
    destruct (process_entry E entry st) as [[] st1]. simpl in *.
    destruct (IH st1) as (lines2 & evs2 & Hout2 & Hn2 & Htr2 & Hd2 & Hother2 & Hkeep2).
    exists (lines1 ++ lines2), (evs1 ++ evs2).
    rewrite Hout2, Hout1, Htr2, Htr1, <- !app_assoc, downloads_app, !length_app.
    split; [done|split; [lia|split; [done|split; [lia|split]]]].
    + intros p Hp. apply not_elem_of_cons in Hp as [Hne Hp].
      rewrite Hother2 by done. by apply Hother1.
    + intros p Hsome. by apply Hkeep2, Hkeep1.
Qed.

(** A run of the loop leaves every file that is not an image path of the
    catalog as it was, and removes no file. *)
Theorem main_loop_keeps_other_files (E : Env) (database : list Brand) (st : State) :
  let st' := (main_loop E database st).2 in
  forall p,
    (p ∈ image_paths database \/ fs st' !! p = fs st !! p)
    /\ (fs st !! p = None \/ is_Some (fs st' !! p)).
Proof.
  intros st' p. subst st'. rewrite main_loop_entries.
  destruct (for_each_entries_step E (entries database) st)
    as (_ & _ & _ & _ & _ & _ & Hother & Hkeep).
  split.
  - destruct (decide (p ∈ image_paths database)) as [Hin|Hout]; [by left|right].
    by apply Hother.
  - destruct (fs st !! p) eqn:Hp; [right|by left].
    apply Hkeep. rewrite Hp. by eexists.
Qed.

(** A run of the loop sends one search per entry and at most one download
    per entry, and prints at most one line per entry, after what was
    printed before. *)
Theorem main_loop_bounds (E : Env) (database : list Brand) (st : State) :
  let st' := (main_loop E database st).2 in
  exists lines evs,
    stdout st' = stdout st ++ lines
    /\ trace st' = trace st ++ evs
    /\ (length lines <= length (entries database))%nat
    /\ length (searches evs) = length (entries database)
    /\ (length (downloads evs) <= length (entries database))%nat.
Proof.
  intros st'. subst st'.
  destruct (main_loop_trace E database st) as (evs' & Htr' & Hs & _).
  rewrite main_loop_entries in *.
  destruct (for_each_entries_step E (entries database) st)
    as (lines & evs & Hout & Hn & Htr & Hd & _).
  exists lines, evs. repeat split; try done.
  rewrite Htr in Htr'. apply app_inv_head in Htr'. subst evs'.
  by rewrite Hs, length_map.
Qed.

(** ** The script *)

(** When [os.makedirs] raises, the script ends with that exception
    before any search: nothing is printed, nothing is requested. *)
Theorem script_aborts_without_directory (E : Env) (st : State) (e : string) :
  os_makedirs E (trace st) image_dir = Some e ->
  script E st = (Raises e, log (EMakedirs image_dir) st).
Proof.
  intros Hmk. unfold script, makedirs, bindx, bind. rewrite Hmk. reflexivity.
Qed.

Lemma script_aborts_without_directory_witness :
  script env_readonly st0 =
    (Raises "Permission denied",
     {| fs := ∅; stdout := []; trace := [EMakedirs "src/assets/car_images"] |}).
Proof.
  rewrite (script_aborts_without_directory env_readonly st0 "Permission denied"
             eq_refl).
  reflexivity.
Defined.

(** * The run on a standard output that may refuse a line *)

Lemma stdout_print (console : Console) (line : string) (st : State) :
  accepts console ->
  Stdout.print console line st = (Returns tt, (print line st).2).
Proof. intros Hok. unfold Stdout.print. by rewrite Hok. Qed.

Lemma stdout_download_image (E : Env) (console : Console) (url : pyval)
    (path : string) (st : State) :
  accepts console ->
  Stdout.download_image E console url path st =
    (Returns tt, (download_image E url path st).2).
Proof.
  intros Hok.
  unfold Stdout.download_image, Stdout.download_image_try,
    Stdout.download_image_except, Stdout.try_except,
    download_image, download_image_try, download_image_except, try_except,
    bindx, bind.
  destruct (get E url true st) as [[response|e] st1]; simpl.
  2: { by rewrite stdout_print. }
  destruct (status_code response =? 200).
  - destruct (with_open_wb E path _ st1) as [[[]|e] st2]; simpl.
    + by rewrite stdout_print.
    + by rewrite stdout_print.
  - by rewrite stdout_print.
Qed.

Lemma stdout_fetch_image_url (E : Env) (console : Console) (b m key : string)
    (st : State) :
  accepts console ->
  Stdout.fetch_image_url E console b m key st =
    (Returns (fetch_image_url E b m key st).1, (fetch_image_url E b m key st).2).
Proof.
  intros Hok.
  unfold Stdout.fetch_image_url, Stdout.fetch_image_url_try,
    Stdout.fetch_image_url_except, Stdout.try_except,
    fetch_image_url, fetch_image_url_try, fetch_image_url_except, try_except,
    bindx, bind, call, retx, ret.
  destruct (get E (PStr (search_url b m key)) false st) as [[response|e] st1]; simpl.
  2: { by rewrite stdout_print. }
  destruct (first_thumbnail response) as [[v|]|e]; simpl; [done|..];
    by rewrite stdout_print.
Qed.

Lemma stdout_process_model (E : Env) (console : Console) (b : string) (m : Model)
    (st : State) :
  accepts console ->
  Stdout.process_model E console b m st = (Returns tt, (process_model E b m st).2).
Proof.
  intros Hok. unfold Stdout.process_model, process_model, bindx, bind.
  rewrite stdout_fetch_image_url by done.
  destruct (fetch_image_url E b (name m) SERPAPI_KEY st) as [v st1]. simpl.
  destruct (truthy v); [by rewrite stdout_download_image|done].
Qed.

Lemma stdout_for_each_models (E : Env) (console : Console) (b : string)
    (ms : list Model) (st : State) :
  accepts console ->
  Stdout.for_each (Stdout.process_model E console b) ms st =
    (Returns tt, (for_each (process_model E b) ms st).2).
Proof.
  intros Hok. revert st. induction ms as [|m ms IH]; intros st; simpl; [done|].
  unfold bindx, bind. rewrite stdout_process_model by done.
  destruct (process_model E b m st) as [[] st1]. simpl. apply IH.
Qed.

Lemma stdout_main_loop (E : Env) (console : Console) (database : list Brand)
    (st : State) :
  accepts console ->
  Stdout.main_loop E console database st =
    (Returns tt, (main_loop E database st).2).
Proof.
  intros Hok. unfold Stdout.main_loop, main_loop. revert st.
  induction database as [|b db IH]; intros st; simpl; [done|].
  unfold bindx, bind. rewrite stdout_for_each_models by done.
  destruct (for_each (process_model E (brand b)) (models b) st) as [[] st1].
  simpl. apply IH.
Qed.

Lemma for_each_entries_foldl (E : Env) (console : Console)
    (l : list (string * Model)) (st : State) :
  accepts console ->
  (for_each (process_entry E) l st).2 = foldl (after_entry E console) st l.
Proof.
  intros Hok. revert st. induction l as [|entry l IH]; intros st; simpl; [done|].
  unfold bind, after_entry. rewrite stdout_process_model by done. simpl.
  unfold process_entry at 1.
  destruct (process_model E entry.1 entry.2 st) as [[] st1]. simpl. apply IH.
Qed.

(** C2, as the specification words it, fails: the [print] of a handler
    stands outside every [try].  Without network, on a standard output
    whose encoding is ASCII, the run prints the errors of the first 165
    entries, sends the search of the 166th, Citroën C3, and ends there
    with the exception of the [print] that had to report it; the last six
    entries are never reached. *)
Lemma handler_print_ends_the_run :
  (Stdout.main_loop env_offline ascii_console car_database st0).1
    = Raises "'ascii' codec can't encode character"
  /\ searches (trace (Stdout.main_loop env_offline ascii_console car_database st0).2)
     = map query_of (take 166 (entries car_database))
  /\ length (stdout (Stdout.main_loop env_offline ascii_console car_database st0).2)
     = 165%nat
  /\ length (entries car_database) = 172%nat.
Proof. repeat split; vm_compute; reflexivity. Qed.

(** C2, as the code has it: on a standard output that takes every line,
    an exception raised anywhere in the [try] block of the fetch is
    caught and printed and the entry is skipped without a download; one
    raised in the [try] block of the download is caught and printed; and
    the loop ends normally in the state reached by running the body on
    every entry of the catalog in turn, each from the state the one
    before left, so that the searches sent are those of all entries, in
    catalog order. *)
Theorem batch_never_aborts (E : Env) (console : Console) (database : list Brand)
    (st : State) :
  accepts console ->
  (forall b m s e s1,
     Stdout.fetch_image_url_try E console b (name m) SERPAPI_KEY s = (Raises e, s1) ->
     Stdout.process_model E console b m s =
       (Returns tt,
        {| fs := fs s1;
           stdout := stdout s1 ++
             ["Error fetching image URL for " +:+ b +:+ " " +:+ name m
              +:+ ": " +:+ e];
           trace := trace s1 |}))
  /\ (forall url path s e s1,
     Stdout.download_image_try E console url path s = (Raises e, s1) ->
     Stdout.download_image E console url path s =
       (Returns tt,
        {| fs := fs s1;
           stdout := stdout s1 ++
             ["Error downloading " +:+ format_value E url +:+ ": " +:+ e];
           trace := trace s1 |}))
  /\ exists st',
       Stdout.main_loop E console database st = (Returns tt, st')
       /\ st' = foldl (after_entry E console) st (entries database)
       /\ exists evs,
            trace st' = trace st ++ evs
            /\ searches evs = map query_of (entries database).
Proof.
  intros Hok. split; [|split].
  - intros b m s e s1 Htry.
    unfold Stdout.process_model, Stdout.fetch_image_url, Stdout.try_except,
      Stdout.fetch_image_url_except, bindx, bind.
    rewrite Htry. rewrite stdout_print by done. reflexivity.
  - intros url path s e s1 Htry.
    unfold Stdout.download_image, Stdout.try_except,
      Stdout.download_image_except, bind.
    rewrite Htry. rewrite stdout_print by done. reflexivity.
  - exists (main_loop E database st).2. split; [by apply stdout_main_loop|split].
    + rewrite main_loop_entries. by apply for_each_entries_foldl.
    + destruct (main_loop_trace E database st) as (evs & Htr & Hs & _).
      by exists evs.
Qed.

(** Without network every entry of the catalog is still searched. *)
Lemma batch_never_aborts_witness :
  Stdout.process_model env_offline any_console "Toyota" corolla st0 =
    (Returns tt,
     {| fs := ∅;
        stdout := ["Error fetching image URL for Toyota Corolla: Connection refused"];
        trace := [EGet (query_of ("Toyota", corolla)) false] |})
  /\ Stdout.download_image env_offline any_console (PStr "http://x/img.jpg")
       "out/toyota_corolla.jpg" st0 =
    (Returns tt,
     {| fs := ∅;
        stdout := ["Error downloading http://x/img.jpg: Connection refused"];
        trace := [EGet (PStr "http://x/img.jpg") true] |})
  /\ exists st',
       Stdout.main_loop env_offline any_console car_database st0 = (Returns tt, st')
       /\ st' = foldl (after_entry env_offline any_console) st0 (entries car_database)
       /\ exists evs,
            trace st' = [] ++ evs
            /\ searches evs = map query_of (entries car_database).
Proof.
  destruct (batch_never_aborts env_offline any_console car_database st0
              (fun _ _ => eq_refl)) as (H1 & H2 & H3).
  split; [|split].
  - rewrite (H1 "Toyota" corolla st0 "Connection refused"
               (log (EGet (query_of ("Toyota", corolla)) false) st0) eq_refl).
    reflexivity.
  - rewrite (H2 (PStr "http://x/img.jpg") "out/toyota_corolla.jpg" st0
               "Connection refused" (log (EGet (PStr "http://x/img.jpg") true) st0)
               eq_refl).
    reflexivity.
  - exact H3.
Defined.

(** When [os.makedirs] succeeds and the standard output takes every
    line, the script ends normally whatever else happens, having searched
    every entry of the catalog. *)
Theorem script_completes (E : Env) (console : Console) (st : State) :
  os_makedirs E (trace st) image_dir = None ->
  accepts console ->
  (Stdout.script E console st).1 = Returns tt
  /\ exists evs,
       trace (Stdout.script E console st).2 = trace st ++ EMakedirs image_dir :: evs
       /\ searches evs = map query_of (entries car_database).
Proof.
  intros Hmk Hok. unfold Stdout.script, makedirs, bindx, bind. rewrite Hmk.
  rewrite stdout_main_loop by done. simpl.
  destruct (main_loop_trace E car_database (log (EMakedirs image_dir) st))
    as (evs & Htr & Hs & _).
  split; [done|]. exists evs. rewrite Htr. simpl. by rewrite <- app_assoc.
Qed.

Lemma script_completes_witness :
  (Stdout.script env_offline any_console st0).1 = Returns tt
  /\ exists evs,
       trace (Stdout.script env_offline any_console st0).2
         = [] ++ EMakedirs image_dir :: evs
       /\ searches evs = map query_of (entries car_database).
Proof.
  apply (script_completes env_offline any_console st0);
    [reflexivity | intros out line; reflexivity].
Defined.

(** When the search of the first entry raises and the standard output
    refuses the line that reports it, the exception of [print] leaves
    the handler, the function and the loop: the run ends there, with
    nothing printed and no further request, whatever the catalog holds
    after that entry. *)
Theorem print_failure_ends_the_loop (E : Env) (console : Console) (b : Brand)
    (m : Model) (ms : list Model) (database : list Brand) (st : State)
    (e e' : string) :
  models b = m :: ms ->
  requests_get E (trace st) (query_of (brand b, m)) false = Raises e ->
  console (stdout st)
    ("Error fetching image URL for " +:+ brand b +:+ " " +:+ name m
     +:+ ": " +:+ e) = Some e' ->
  Stdout.main_loop E console (b :: database) st =
    (Raises e', log (EGet (query_of (brand b, m)) false) st).
Proof.
  intros Hms Hget Hprint. unfold Stdout.main_loop. cbn [Stdout.for_each].
  rewrite Hms. cbn [Stdout.for_each].
  unfold Stdout.process_model, Stdout.fetch_image_url, Stdout.try_except,
    Stdout.fetch_image_url_try, Stdout.fetch_image_url_except, Stdout.print,
    bindx, bind, get, query_of in *.
  simpl in *. rewrite Hget. simpl. rewrite Hprint. reflexivity.
Qed.

Lemma print_failure_ends_the_loop_witness :
  Stdout.main_loop env_offline ascii_console (citroen ++ toyota) st0 =
    (Raises "'ascii' codec can't encode character",
     {| fs := ∅; stdout := [];
        trace := [EGet (PStr (search_url "Citroën" "C3" SERPAPI_KEY)) false] |}).
Proof.
  exact (print_failure_ends_the_loop env_offline ascii_console
           {| brand := "Citroën";
              models := [mk "C3" 2002 "src/assets/car_images/citroen_c3.jpg"] |}
           (mk "C3" 2002 "src/assets/car_images/citroen_c3.jpg") [] toyota st0
           "Connection refused" "'ascii' codec can't encode character"
           eq_refl eq_refl eq_refl).
Defined.
